(** * StudyBoost: the note-enhancement route

    A shallow embedding of [src/app/api/enhance-note/route.ts] (the
    module-level client and the [POST] handler of the enhance-note endpoint)
    and the properties its specification states about it.

    Layout: JavaScript strings and the string primitives the handler uses,
    then the data model, the effect monad of the handler, the handler itself,
    and finally the theorems. *)

From Stdlib Require Import List Bool Arith NArith ZArith QArith Qround Lia.
From Stdlib Require Import Strings.String Strings.Ascii Numbers.DecimalString.
Import ListNotations.
Close Scope Q_scope.
Open Scope string_scope.
Open Scope list_scope.

Set Implicit Arguments.

(** ** JavaScript strings

    A JavaScript string is a sequence of UTF-16 code units; [.length] counts
    code units and [+=] / template interpolation concatenate them. *)
Module Js.

Definition code_unit := N.
Definition jsstring := list code_unit.

(** A source literal.  Every string literal of the route is plain ASCII, so
    each character is one code unit. *)
Definition lit (s : string) : jsstring :=
  map N_of_ascii (list_ascii_of_string s).

(** The line feed that a template literal carries at each line break. *)
Definition LF : jsstring := [10%N].

(** [`${n}`] for a non-negative integer: its decimal digits. *)
Definition show_nat (n : N) : jsstring :=
  lit (NilZero.string_of_uint (N.to_uint n)).

(** [`${z}`] for an integer. *)
Definition show_int (z : Z) : jsstring :=
  match z with
  | Zneg p => lit "-" ++ show_nat (Npos p)
  | _ => show_nat (Z.to_N z)
  end.

(** Truthiness of a value that is a string or [undefined]/[null]: only a
    non-empty string is truthy. *)
Definition truthy (v : option jsstring) : bool :=
  match v with
  | Some (_ :: _) => true
  | _ => false
  end.

(** [v || d] on such a value. *)
Definition or_default (v : option jsstring) (d : jsstring) : jsstring :=
  if truthy v then match v with Some s => s | None => d end else d.

(** The class [\s] of a regular expression without the unicode flag:
    WhiteSpace and LineTerminator code points, all in the basic plane. *)
Definition is_space (c : code_unit) : bool :=
  ((9 <=? c) && (c <=? 13) || (c =? 32) || (c =? 160) || (c =? 5760)
   || (8192 <=? c) && (c <=? 8202) || (c =? 8232) || (c =? 8233)
   || (c =? 8239) || (c =? 8287) || (c =? 12288) || (c =? 65279))%N.

(** [s.split(/\s+/)].  The pieces are the maximal stretches between runs of
    white space; a run at either end leaves an empty piece there, and a
    string without white space (the empty string too) is its own single
    piece.  [in_run] records that the previous code unit was white space,
    [piece] holds the current piece reversed. *)
Fixpoint split_from (in_run : bool) (piece : jsstring) (s : jsstring)
  : list jsstring :=
  match s with
  | [] => [rev piece]
  | c :: rest =>
      if is_space c then
        if in_run then split_from true [] rest
        else rev piece :: split_from true [] rest
      else split_from false (c :: piece) rest
  end.

Definition split_spaces (s : jsstring) : list jsstring :=
  split_from false [] s.

(** [parts.join(sep)]. *)
Fixpoint join (sep : jsstring) (parts : list jsstring) : jsstring :=
  match parts with
  | [] => []
  | [p] => p
  | p :: rest => p ++ sep ++ join sep rest
  end.

(** [Math.ceil] of an exact quotient.  The handler only divides a string
    length by four, which a double represents exactly. *)
Definition Math_ceil (q : Q) : Z := Qceiling q.

(** [a === b] on two strings. *)
Fixpoint eqb (a b : jsstring) : bool :=
  match a, b with
  | [], [] => true
  | x :: a', y :: b' => (x =? y)%N && eqb a' b'
  | _, _ => false
  end.

(** [hay] contains [needle] as a contiguous substring. *)
Definition contains (hay needle : jsstring) : Prop :=
  exists before after, hay = before ++ needle ++ after.

Fixpoint starts_with (s p : jsstring) : bool :=
  match p, s with
  | [], _ => true
  | _ :: _, [] => false
  | a :: p', b :: s' => (a =? b)%N && starts_with s' p'
  end.

(** The executable counterpart of [contains]. *)
Fixpoint includes (hay needle : jsstring) : bool :=
  starts_with hay needle
  || match hay with
     | [] => false
     | _ :: rest => includes rest needle
     end.

End Js.
Import Js.

(** ** Data model *)

(** Modelled from the spec: the type [EnhancementSettings] of [@/lib/types],
    which the route imports and which is not among the sources.  Section 3 of
    the specification gives its six fields and the three structure levels. *)
Inductive StructureLevel := basic | detailed | comprehensive.

Record EnhancementSettings := {
  includeDefinitions : bool;
  generateQuestions : bool;
  createSummary : bool;
  addExamples : bool;
  structureLevel : StructureLevel;
  autoGenerateFlashcards : bool
}.

(** Modelled from the spec: the record that [getModelConfig] of [@/lib/config]
    returns (not among the sources): a display name and two token ceilings,
    which are counts. *)
Record ModelConfig := {
  name : jsstring;
  maxInputTokens : N;
  maxOutputTokens : N
}.

(** The payload the handler destructures from [request.json()]. *)
Record EnhancementRequest := {
  noteId : jsstring;
  originalContent : jsstring;
  subject : jsstring;
  enhancementSettings : EnhancementSettings
}.

(** What [auth()] resolves to: the user identifier, absent when nobody is
    signed in, and the optional plan predicate [has]. *)
Record AuthObject := {
  userId : option jsstring;
  has : option (jsstring -> bool)
}.

(** A loosely typed field of a thrown value. *)
Inductive FaultField :=
| FAbsent
| FString (s : jsstring)
| FNumber (n : Z).

(** A thrown value, as far as the [catch] block looks at it. *)
Module Fault.
Record t := {
  code : FaultField;
  status : FaultField;
  message : jsstring
}.
End Fault.

(** The chat-completion call and its answer. *)
Module Chat.
Record Message := { role : jsstring; content : jsstring }.
Record Params := {
  model : jsstring;
  messages : list Message;
  temperature : Q;
  max_tokens : N
}.
Record ReplyMessage := { reply_content : option jsstring }.
Record Choice := { message : option ReplyMessage }.
Record Completion := { choices : list Choice }.
End Chat.

(** JSON values of a response body, and the response [NextResponse.json]
    builds: a body with its keys in source order, and a status code. *)
Inductive Json :=
| JBool (b : bool)
| JNum (z : Z)
| JStr (s : jsstring).

Definition JsonObject := list (string * Json).

Record Response := {
  body : JsonObject;
  status : N
}.

Fixpoint field (k : string) (o : JsonObject) : option Json :=
  match o with
  | [] => None
  | (k', v) :: rest => if String.eqb k k' then Some v else field k rest
  end.

(** [NextResponse.json(body)] answers 200 unless an init object says
    otherwise. *)
Definition NextResponse_json (o : JsonObject) (init : option N) : Response :=
  {| body := o; status := match init with Some s => s | None => 200%N end |}.

(** ** Effects of the handler

    The handler talks to its collaborators in a fixed order.  A [World] fixes
    what each of them answers; the handler's state is the trace of the calls
    made so far and the number of clock readings taken. *)
Inductive Outcome (A : Type) :=
| Returned (a : A)
| Thrown (e : Fault.t).
Arguments Returned {A} a.
Arguments Thrown {A} e.

Inductive Event :=
| EvAuth
| EvRequestJson
| EvLog (line : jsstring)
| EvNow
| EvCreate (p : Chat.Params)
| EvLogError (e : Fault.t).

Record World := {
  auth : Outcome AuthObject;
  request_json : Outcome EnhancementRequest;
  OPENAI_API_KEY : option jsstring;
  OPENAI_MODEL : option jsstring;
  getModelConfig : jsstring -> ModelConfig;
  Date_now : nat -> Z;
  create : Chat.Params -> Outcome Chat.Completion
}.

Record State := {
  trace : list Event;
  ticks : nat
}.

Definition initial : State := {| trace := []; ticks := 0 |}.

Definition M (A : Type) := State -> Outcome A * State.

Definition ret {A} (a : A) : M A := fun st => (Returned a, st).

Definition bind {A B} (m : M A) (k : A -> M B) : M B :=
  fun st =>
    match m st with
    | (Returned a, st') => k a st'
    | (Thrown e, st') => (Thrown e, st')
    end.

Declare Scope js_scope.
Delimit Scope js_scope with js.
Notation "x <- m ;; k" := (bind m (fun x => k))
  (at level 100, m at next level, right associativity) : js_scope.
Notation "m ;; k" := (bind m (fun _ => k))
  (at level 100, right associativity) : js_scope.
Open Scope js_scope.

Definition emit (ev : Event) : M unit :=
  fun st => (Returned tt, {| trace := trace st ++ [ev]; ticks := ticks st |}).

(** An awaited call to a collaborator: it is recorded, then returns or
    throws what the world says. *)
Definition await {A} (ev : Event) (answer : Outcome A) : M A :=
  fun st => (answer, {| trace := trace st ++ [ev]; ticks := ticks st |}).

Definition now (w : World) : M Z :=
  fun st => (Returned (Date_now w (ticks st)),
             {| trace := trace st ++ [EvNow]; ticks := S (ticks st) |}).

Definition console_log (line : jsstring) : M unit := emit (EvLog line).
Definition console_error (e : Fault.t) : M unit := emit (EvLogError e).

(** [try { m } catch (error) { h error }]. *)
Definition try_catch {A} (m : M A) (h : Fault.t -> M A) : M A :=
  fun st =>
    match m st with
    | (Returned a, st') => (Returned a, st')
    | (Thrown e, st') => h e st'
    end.

(** ** The route *)

(** The module-level table [enhancementPrompts]; each entry is a template
    literal broken over two source lines. *)
Module enhancementPrompts.

Definition structure : jsstring :=
  lit "Organize this content with clear headings, bullet points, and logical flow. "
  ++ LF ++ lit "  Make it easy to read and understand for students.".

Definition definitions : jsstring :=
  lit "Identify technical terms, jargon, or complex concepts and provide clear, "
  ++ LF ++ lit "  student-friendly definitions for each. Format as: **Term**: Definition".

Definition questions : jsstring :=
  lit "Generate 3-5 study questions from this content that would help students "
  ++ LF ++ lit "  test their understanding. Include both factual and conceptual questions.".

Definition summary : jsstring :=
  lit "Create concise summaries of each major section. Highlight key takeaways "
  ++ LF ++ lit "  and main points that students should remember.".

Definition examples : jsstring :=
  lit "Add relevant examples, analogies, or real-world applications for abstract "
  ++ LF ++ lit "  concepts mentioned in the content.".

End enhancementPrompts.

(** The instruction pushed for [structureLevel === "detailed"]. *)
Definition detailedStructure : jsstring :=
  lit "Organize this content with clear headings and bullet points.".

(** [has?.({ plan }) ?? false]. *)
Definition hasPlan (a : AuthObject) (plan : string) : bool :=
  match has a with
  | Some h => h (lit plan)
  | None => false
  end.

Definition isStudent (a : AuthObject) : bool := hasPlan a "student".
Definition isPro (a : AuthObject) : bool := hasPlan a "pro" || hasPlan a "premium".
Definition isPaid (a : AuthObject) : bool := isStudent a || isPro a.

(** The object literal a free plan is forced to. *)
Definition basicPreset : EnhancementSettings :=
  {| includeDefinitions := true;
     generateQuestions := false;
     createSummary := false;
     addExamples := false;
     structureLevel := basic;
     autoGenerateFlashcards := false |}.

(** [isPaid ? enhancementSettings : { ... }]. *)
Definition effectiveSettings (paid : bool) (requested : EnhancementSettings)
  : EnhancementSettings :=
  if paid then requested else basicPreset.

(** [Math.ceil(originalContent.length / 4)]. *)
Definition estimatedTokens (originalContent : jsstring) : Z :=
  Math_ceil (inject_Z (Z.of_nat (List.length originalContent)) / 4).

Definition defaultModel : jsstring := lit "gpt-3.5-turbo".

(** The test [estimatedTokens > maxTokens] of the budget gate. *)
Definition overBudget (estimated maxTokens : Z) : bool :=
  (maxTokens <? estimated)%Z.

Definition tooLargeMessage (estimated maxTokens : Z) : jsstring :=
  lit "Content too large (" ++ show_int estimated
  ++ lit " estimated tokens). Please reduce content to under "
  ++ show_int (maxTokens * 4) ++ lit " characters.".

(** The array [enhancements] after the five conditional pushes. *)
Definition enhancements (s : EnhancementSettings) : list jsstring :=
  let e0 : list jsstring := [] in
  let e1 :=
    match structureLevel s with
    | comprehensive => e0 ++ [enhancementPrompts.structure]
    | detailed => e0 ++ [detailedStructure]
    | basic => e0
    end in
  let e2 := if includeDefinitions s
            then e1 ++ [enhancementPrompts.definitions] else e1 in
  let e3 := if generateQuestions s
            then e2 ++ [enhancementPrompts.questions] else e2 in
  let e4 := if createSummary s
            then e3 ++ [enhancementPrompts.summary] else e3 in
  let e5 := if addExamples s
            then e4 ++ [enhancementPrompts.examples] else e4 in
  e5.

(** The prompt, as the chain of [prompt += ...] statements builds it. *)
Definition composePrompt (subject originalContent : jsstring)
  (s : EnhancementSettings) : jsstring :=
  let prompt := lit "You are an expert educational assistant helping to enhance student notes. " in
  let prompt := prompt ++ (lit "The content is from a " ++ subject ++ lit " class. ") in
  let prompt := prompt ++ (lit "Please enhance this content to make it more organized, clear, and study-friendly." ++ LF ++ LF) in
  let prompt := prompt ++ (lit "Original content:" ++ LF ++ originalContent ++ LF ++ LF) in
  let prompt := prompt ++ (lit "Enhancement instructions:" ++ LF
                           ++ join (LF ++ LF) (enhancements s) ++ LF ++ LF) in
  let prompt := prompt ++ lit "Please provide the enhanced content in markdown format. " in
  let prompt := prompt ++ lit "Make it well-structured, easy to read, and study-friendly. " in
  let prompt := prompt ++ lit "If you add definitions, format them as **Term**: Definition. " in
  let prompt := prompt ++ lit "If you add questions, format them as ### Study Questions followed by numbered questions. " in
  let prompt := prompt ++ lit "If you add summaries, format them as ### Summary followed by bullet points." in
  prompt.

Definition systemMessage : jsstring :=
  lit "You are an expert educational assistant that helps students improve their notes. Always respond in markdown format and focus on clarity, organization, and educational value.".

(** [completion.choices[0]?.message?.content || ""]. *)
Definition completionText (c : Chat.Completion) : jsstring :=
  match Chat.choices c with
  | [] => []
  | first :: _ =>
      match Chat.message first with
      | None => []
      | Some m => or_default (Chat.reply_content m) []
      end
  end.

(** [field === "..."] and [field === n] on a field of a thrown value. *)
Definition is_string (f : FaultField) (s : jsstring) : bool :=
  match f with
  | FString c => Js.eqb c s
  | _ => false
  end.

Definition is_number (f : FaultField) (n : Z) : bool :=
  match f with
  | FNumber m => (m =? n)%Z
  | _ => false
  end.

(** The [catch] block after its [console.error]: the thrown value is sorted
    by its [code], then by its [status]. *)
Definition classify (error : Fault.t) : Response :=
  if is_string (Fault.code error) (lit "rate_limit_exceeded") then
    NextResponse_json
      [("success", JBool false);
       ("error", JStr (lit "Rate limit exceeded. Please wait a moment and try again, or reduce the content size."));
       ("details", JStr (lit "OpenAI rate limit hit. Try with shorter content."))]
      (Some 429%N)
  else if is_number (Fault.status error) 429 then
    NextResponse_json
      [("success", JBool false);
       ("error", JStr (lit "Content too large for processing. Please reduce the content size and try again."));
       ("details", JStr (lit "Token limit exceeded. Try with shorter content."))]
      (Some 400%N)
  else
    NextResponse_json
      [("success", JBool false);
       ("error", JStr (lit "Failed to enhance note. Please try again."))]
      (Some 500%N).

(** The client class of the [openai] package, version 4 and later, which the
    route imports and builds at module level.  Its constructor takes the
    key from its argument, falls back on the environment variable of the
    same name when the argument is undefined, and throws an [OpenAIError],
    which has neither [code] nor [status], when the key is still undefined.
    A key that is set, the empty string too, is accepted.  The message
    below is the one of version 4; nothing in the route reads it. *)
Module OpenAI.

Record Client := { apiKey : jsstring }.

Definition missingCredentials : Fault.t :=
  {| Fault.code := FAbsent;
     Fault.status := FAbsent;
     Fault.message :=
       lit "The OPENAI_API_KEY environment variable is missing or empty; either provide it, or instantiate the OpenAI client with an apiKey option, like new OpenAI({ apiKey: 'My API Key' })." |}.

Definition new (key : option jsstring) : Outcome Client :=
  match key with
  | Some k => Returned {| apiKey := k |}
  | None => Thrown missingCredentials
  end.

End OpenAI.

(** [const openai = new OpenAI({ apiKey: process.env.OPENAI_API_KEY })]: what
    evaluating the route module does before it can export [POST]. *)
Definition route_module (w : World) : Outcome OpenAI.Client :=
  OpenAI.new (OPENAI_API_KEY w).

Section Route.

(** The template literal of the placeholder document is closed on line 89 of
    the route, and the text of that line is not available: whatever stands
    there before the closing backquote is a parameter. *)
Variable mockFooter : jsstring.

(** The template literal [mockEnhancedContent]. *)
Definition mockEnhancedContent (subject originalContent : jsstring) : jsstring :=
  lit "# Enhanced: " ++ subject ++ LF
  ++ LF
  ++ lit "## Summary" ++ LF
  ++ lit "This is a mock enhancement since no OpenAI API key is configured. Please add your OpenAI API key to the .env.local file for full functionality." ++ LF
  ++ LF
  ++ lit "## Original Content" ++ LF
  ++ originalContent ++ LF
  ++ LF
  ++ lit "## Study Questions" ++ LF
  ++ lit "1. What are the main points covered in this content?" ++ LF
  ++ lit "2. How can you apply these concepts in practice?" ++ LF
  ++ lit "3. What questions do you have about this material?" ++ LF
  ++ LF
  ++ lit "## Key Terms" ++ LF
  ++ lit "- **Term**: Definition would appear here with real API" ++ LF
  ++ lit "- **Concept**: Explanation would appear here with real API" ++ LF
  ++ LF
  ++ lit "---" ++ LF
  ++ mockFooter.

(** The argument of [openai.chat.completions.create]. *)
Definition createParams (model prompt : jsstring) (modelConfig : ModelConfig)
  : Chat.Params :=
  {| Chat.model := model;
     Chat.messages :=
       [ {| Chat.role := lit "system"; Chat.content := systemMessage |};
         {| Chat.role := lit "user"; Chat.content := prompt |} ];
     Chat.temperature := 0.7;
     Chat.max_tokens := maxOutputTokens modelConfig |}.

(** The body of the [try] block. *)
Definition POST_try (w : World) : M Response :=
  a <- await EvAuth (auth w) ;;
  if negb (truthy (userId a)) then
    ret (NextResponse_json
           [("success", JBool false);
            ("error", JStr (lit "Not authenticated"))]
           (Some 401%N))
  else
    let isPaid := isPaid a in
    req <- await EvRequestJson (request_json w) ;;
    let effective := effectiveSettings isPaid (enhancementSettings req) in
    let estimated := estimatedTokens (originalContent req) in
    let model := or_default (OPENAI_MODEL w) defaultModel in
    let modelConfig := getModelConfig w model in
    let maxTokens := Z.of_N (maxInputTokens modelConfig) in
    console_log (lit "Using model: " ++ model ++ lit " ("
                 ++ name modelConfig ++ lit ")") ;;
    console_log (lit "Estimated tokens: " ++ show_int estimated ++ lit "/"
                 ++ show_int maxTokens) ;;
    if overBudget estimated maxTokens then
      ret (NextResponse_json
             [("success", JBool false);
              ("error", JStr (tooLargeMessage estimated maxTokens));
              ("estimatedTokens", JNum estimated);
              ("maxTokens", JNum (maxTokens * 4))]
             (Some 400%N))
    else if negb (truthy (OPENAI_API_KEY w)) then
      let mock := mockEnhancedContent (subject req) (originalContent req) in
      ret (NextResponse_json
             [("success", JBool true);
              ("enhancedContent", JStr mock);
              ("processingTime", JNum 1000);
              ("wordCount", JNum (Z.of_nat (List.length (split_spaces mock))))]
             None)
    else
      startTime <- now w ;;
      let prompt := composePrompt (subject req) (originalContent req) effective in
      let params := createParams model prompt modelConfig in
      completion <- await (EvCreate params) (create w params) ;;
      let enhancedContent := completionText completion in
      finished <- now w ;;
      let processingTime := (finished - startTime)%Z in
      let wordCount := List.length (split_spaces enhancedContent) in
      ret (NextResponse_json
             [("success", JBool true);
              ("enhancedContent", JStr enhancedContent);
              ("processingTime", JNum processingTime);
              ("wordCount", JNum (Z.of_nat wordCount))]
             None).

(** [POST]: the [try] block and its [catch]. *)
Definition POST (w : World) : M Response :=
  try_catch (POST_try w)
    (fun error => console_error error ;; ret (classify error)).

(** A request served by the route: the module is evaluated first, and
    only a module that evaluates exports the handler that then runs.  A
    throw of the module is not within any [try] of the route. *)
Definition serve (w : World) : M Response :=
  fun st =>
    match route_module w with
    | Returned _ => POST w st
    | Thrown e => (Thrown e, st)
    end.

(** The provider was called somewhere in a trace. *)
Definition is_create (ev : Event) : bool :=
  match ev with
  | EvCreate _ => true
  | _ => false
  end.

Definition providerCalls (t : list Event) : list Event := filter is_create t.

End Route.

(** ** Vocabulary for the handler's runs *)

Section Run.

Variable w : World.

(** The model the handler settles on, and its configuration. *)
Definition chosenModel : jsstring := or_default (OPENAI_MODEL w) defaultModel.
Definition chosenConfig : ModelConfig := getModelConfig w chosenModel.

(** What the handler has done once the budget has been estimated. *)
Definition gateEvents (req : EnhancementRequest) : list Event :=
  [ EvAuth; EvRequestJson;
    EvLog (lit "Using model: " ++ chosenModel ++ lit " ("
           ++ name chosenConfig ++ lit ")");
    EvLog (lit "Estimated tokens: "
           ++ show_int (estimatedTokens (originalContent req)) ++ lit "/"
           ++ show_int (Z.of_N (maxInputTokens chosenConfig))) ].

(** The request the provider receives for an identity and a payload. *)
Definition sentParams (a : AuthObject) (req : EnhancementRequest) : Chat.Params :=
  createParams chosenModel
    (composePrompt (subject req) (originalContent req)
       (effectiveSettings (isPaid a) (enhancementSettings req)))
    chosenConfig.

(** The conditions under which the handler gets as far as the provider:
    a signed-in caller, a readable body, an estimate within the budget and a
    configured credential. *)
Definition reachesProvider (a : AuthObject) (req : EnhancementRequest) : Prop :=
  auth w = Returned a
  /\ truthy (userId a) = true
  /\ request_json w = Returned req
  /\ overBudget (estimatedTokens (originalContent req))
       (Z.of_N (maxInputTokens chosenConfig)) = false
  /\ truthy (OPENAI_API_KEY w) = true.

Definition unauthenticated : Response :=
  {| body := [("success", JBool false);
              ("error", JStr (lit "Not authenticated"))];
     status := 401 |}.

End Run.

(** ** The sections of the two documents

    The pieces of the prompt, in the order of the [prompt += ...] statements,
    and the pieces of the placeholder document, in the order of the lines of
    its template literal. *)

Module Prompt.

Definition preamble : jsstring :=
  lit "You are an expert educational assistant helping to enhance student notes. ".

Definition subjectSentence (subject : jsstring) : jsstring :=
  lit "The content is from a " ++ subject ++ lit " class. ".

Definition framing : jsstring :=
  lit "Please enhance this content to make it more organized, clear, and study-friendly."
  ++ LF ++ LF.

Definition originalBlock (originalContent : jsstring) : jsstring :=
  lit "Original content:" ++ LF ++ originalContent ++ LF ++ LF.

(** The text between the header line of the instruction block and the two
    line feeds that end it. *)
Definition instructions (s : EnhancementSettings) : jsstring :=
  join (LF ++ LF) (enhancements s).

Definition instructionBlock (s : EnhancementSettings) : jsstring :=
  lit "Enhancement instructions:" ++ LF ++ instructions s ++ LF ++ LF.

Definition closing : jsstring :=
  lit "Please provide the enhanced content in markdown format. "
  ++ lit "Make it well-structured, easy to read, and study-friendly. "
  ++ lit "If you add definitions, format them as **Term**: Definition. "
  ++ lit "If you add questions, format them as ### Study Questions followed by numbered questions. "
  ++ lit "If you add summaries, format them as ### Summary followed by bullet points.".

End Prompt.

Module Mock.

Definition heading (subject : jsstring) : jsstring :=
  lit "# Enhanced: " ++ subject ++ LF ++ LF.

Definition notice : jsstring :=
  lit "## Summary" ++ LF
  ++ lit "This is a mock enhancement since no OpenAI API key is configured. Please add your OpenAI API key to the .env.local file for full functionality." ++ LF
  ++ LF.

Definition echo (originalContent : jsstring) : jsstring :=
  lit "## Original Content" ++ LF ++ originalContent ++ LF ++ LF.

Definition questions : jsstring :=
  lit "## Study Questions" ++ LF
  ++ lit "1. What are the main points covered in this content?" ++ LF
  ++ lit "2. How can you apply these concepts in practice?" ++ LF
  ++ lit "3. What questions do you have about this material?" ++ LF
  ++ LF.

Definition terms : jsstring :=
  lit "## Key Terms" ++ LF
  ++ lit "- **Term**: Definition would appear here with real API" ++ LF
  ++ lit "- **Concept**: Explanation would appear here with real API" ++ LF
  ++ LF.

Definition rule (mockFooter : jsstring) : jsstring :=
  lit "---" ++ LF ++ mockFooter.

End Mock.

(** The user prompts of the provider calls in a trace, oldest first. *)
Definition userPrompt (p : Chat.Params) : list jsstring :=
  map Chat.content
    (filter (fun m => Js.eqb (Chat.role m) (lit "user")) (Chat.messages p)).

Fixpoint sentPrompts (t : list Event) : list jsstring :=
  match t with
  | [] => []
  | EvCreate p :: rest => userPrompt p ++ sentPrompts rest
  | _ :: rest => sentPrompts rest
  end.

(** Membership in an array of strings, decided with [===]. *)
Definition mem (x : jsstring) (l : list jsstring) : bool :=
  existsb (Js.eqb x) l.

(** ** Sample runs

    Concrete callers, payloads and worlds, among them the end-to-end
    scenarios of the specification. *)

Module Sample.

Definition anonymous : AuthObject := {| userId := None; has := None |}.

Definition free : AuthObject :=
  {| userId := Some (lit "user_free"); has := Some (fun _ => false) |}.

Definition student : AuthObject :=
  {| userId := Some (lit "user_student");
     has := Some (fun plan => Js.eqb plan (lit "student")) |}.

Definition allOn : EnhancementSettings :=
  {| includeDefinitions := true;
     generateQuestions := true;
     createSummary := true;
     addExamples := true;
     structureLevel := comprehensive;
     autoGenerateFlashcards := true |}.

Definition allOff : EnhancementSettings :=
  {| includeDefinitions := false;
     generateQuestions := false;
     createSummary := false;
     addExamples := false;
     structureLevel := basic;
     autoGenerateFlashcards := false |}.

Definition short : EnhancementRequest :=
  {| noteId := lit "note_1";
     originalContent := lit "Cells divide by mitosis.";
     subject := lit "Biology";
     enhancementSettings := allOn |}.

(** Ten thousand characters of content. *)
Definition long : EnhancementRequest :=
  {| noteId := lit "note_2";
     originalContent := repeat 97%N (100 * 100);
     subject := lit "Biology";
     enhancementSettings := allOn |}.

(** A registry with an input ceiling of 2000 tokens for every model. *)
Definition registry (model : jsstring) : ModelConfig :=
  {| name := model; maxInputTokens := 2000; maxOutputTokens := 1000 |}.

Definition world (a : Outcome AuthObject) (req : EnhancementRequest)
  (key model : option jsstring) (clock : nat -> Z)
  (provider : Outcome Chat.Completion) : World :=
  {| auth := a;
     request_json := Returned req;
     OPENAI_API_KEY := key;
     OPENAI_MODEL := model;
     getModelConfig := registry;
     Date_now := clock;
     create := fun _ => provider |}.

Definition reply (text : option jsstring) : Outcome Chat.Completion :=
  Returned {| Chat.choices :=
                [ {| Chat.message := Some {| Chat.reply_content := text |} |} ] |}.

Definition rateLimit : Fault.t :=
  {| Fault.code := FString (lit "rate_limit_exceeded");
     Fault.status := FNumber 429;
     Fault.message := lit "Rate limit reached for requests" |}.

Definition signedOut : World :=
  world (Returned anonymous) short (Some (lit "sk-test")) None
    (fun n => Z.of_nat n) (reply (Some (lit "# Notes"))).

Definition oversized : World :=
  world (Returned free) long (Some (lit "sk-test")) None
    (fun n => Z.of_nat n) (reply (Some (lit "# Notes"))).

Definition noCredential : World :=
  world (Returned student) short None None
    (fun n => Z.of_nat n) (reply (Some (lit "# Notes"))).

(** The credential is set, but to the empty string. *)
Definition emptyKey : World :=
  world (Returned student) short (Some []) None
    (fun n => Z.of_nat n) (reply (Some (lit "# Notes"))).

Definition answered : World :=
  world (Returned student) short (Some (lit "sk-test")) None
    (fun n => Z.of_nat n) (reply (Some (lit "# Notes"))).

Definition silent : World :=
  world (Returned student) short (Some (lit "sk-other")) (Some (lit "gpt-4"))
    (fun n => (1700000000000 + 250 * Z.of_nat n)%Z) (reply None).

Definition throttled : World :=
  world (Returned student) short (Some (lit "sk-test")) None
    (fun n => Z.of_nat n) (Thrown rateLimit).

End Sample.

(** ** Vocabulary for comparing runs and texts *)

(** The world [w] with another payload in the request. *)
Definition withRequest (w : World) (req : EnhancementRequest) : World :=
  {| auth := auth w;
     request_json := Returned req;
     OPENAI_API_KEY := OPENAI_API_KEY w;
     OPENAI_MODEL := OPENAI_MODEL w;
     getModelConfig := getModelConfig w;
     Date_now := Date_now w;
     create := create w |}.

(** The world [w] with another caller resolved by [auth()]. *)
Definition withCaller (w : World) (a : AuthObject) : World :=
  {| auth := Returned a;
     request_json := request_json w;
     OPENAI_API_KEY := OPENAI_API_KEY w;
     OPENAI_MODEL := OPENAI_MODEL w;
     getModelConfig := getModelConfig w;
     Date_now := Date_now w;
     create := create w |}.

(** Two payloads agree on everything the handler reads: the content, the
    subject, the structure level and the four instruction flags. *)
Definition readAlike (r1 r2 : EnhancementRequest) : Prop :=
  originalContent r1 = originalContent r2
  /\ subject r1 = subject r2
  /\ structureLevel (enhancementSettings r1)
     = structureLevel (enhancementSettings r2)
  /\ includeDefinitions (enhancementSettings r1)
     = includeDefinitions (enhancementSettings r2)
  /\ generateQuestions (enhancementSettings r1)
     = generateQuestions (enhancementSettings r2)
  /\ createSummary (enhancementSettings r1)
     = createSummary (enhancementSettings r2)
  /\ addExamples (enhancementSettings r1)
     = addExamples (enhancementSettings r2).

(** The instructions in the order of the conditional pushes. *)
Definition instructionOrder : list jsstring :=
  [ enhancementPrompts.structure; detailedStructure;
    enhancementPrompts.definitions; enhancementPrompts.questions;
    enhancementPrompts.summary; enhancementPrompts.examples ].

Definition nonspace (c : code_unit) : bool := negb (is_space c).

(** The last event of a trace. *)
Definition lastEvent (t : list Event) : option Event :=
  match rev t with
  | [] => None
  | ev :: _ => Some ev
  end.

(** * Properties *)

(** ** String primitives *)

Arguments lit : simpl never.

Lemma eqb_eq (a b : jsstring) : Js.eqb a b = true <-> a = b.
Proof.
  revert b; induction a as [|x a IH]; intros [|y b]; simpl; split;
    try congruence; try reflexivity.
  - intros H. apply andb_true_iff in H as [Hxy Hab].
    apply N.eqb_eq in Hxy. apply IH in Hab. congruence.
  - intros H. injection H as -> ->.
    apply andb_true_iff. split; [apply N.eqb_refl | now apply IH].
Qed.

Lemma starts_with_spec (p s : jsstring) :
  starts_with s p = true <-> exists after, s = p ++ after.
Proof.
  revert s; induction p as [|a p IH]; intros s.
  - destruct s; simpl; split; eauto.
  - destruct s as [|b s]; simpl.
    + split; [discriminate | intros [after H]; discriminate].
    + rewrite andb_true_iff, N.eqb_eq, IH. split.
      * intros [-> [after ->]]. now exists after.
      * intros [after H]. injection H as -> ->. eauto.
Qed.

Lemma includes_spec (hay needle : jsstring) :
  includes hay needle = true <-> contains hay needle.
Proof.
  induction hay as [|c hay IH].
  - cbn [includes]. rewrite orb_false_r, starts_with_spec. split.
    + intros [after H]. exists [], after. exact H.
    + intros [before [after H]]. destruct before; [now exists after|discriminate].
  - cbn [includes]. rewrite orb_true_iff, starts_with_spec, IH. split.
    + intros [[after H] | [before [after H]]].
      * exists [], after. exact H.
      * exists (c :: before), after. simpl. now rewrite H.
    + intros [[|b before] [after H]].
      * left. now exists after.
      * right. injection H as _ H. now exists before, after.
Qed.

(** Splitting on white space never yields an empty array. *)
Lemma split_from_nonempty (s piece : jsstring) (in_run : bool) :
  1 <= List.length (split_from in_run piece s).
Proof.
  revert piece in_run; induction s as [|c s IH]; intros piece in_run; simpl.
  - lia.
  - destruct (is_space c); [destruct in_run|]; simpl; auto with arith.
Qed.

Lemma split_spaces_nonempty (s : jsstring) :
  1 <= List.length (split_spaces s).
Proof. apply split_from_nonempty. Qed.

Example split_words :
  split_spaces (lit "two  words") = [lit "two"; lit "words"].
Proof. reflexivity. Qed.

Example split_padded :
  split_spaces (lit " a b ") = [[]; lit "a"; lit "b"; []].
Proof. reflexivity. Qed.

Example split_empty : split_spaces [] = [[]].
Proof. reflexivity. Qed.

Example split_blank : split_spaces (lit " ") = [[]; []].
Proof. reflexivity. Qed.

(** [Math.ceil(n / 4)] in integer arithmetic. *)
Lemma ceil_quarter (n : Z) :
  Math_ceil (inject_Z n / 4) = ((n + 3) / 4)%Z.
Proof.
  unfold Math_ceil, Qceiling, Qfloor, Qdiv, Qmult, Qinv, Qopp, inject_Z.
  cbn [Qnum Qden Pos.mul].
  rewrite Z.mul_1_r. Z.div_mod_to_equations. lia.
Qed.

(** ** The paths through the handler *)

Section Paths.

Variable mockFooter : jsstring.
Variable w : World.
Variable st : State.

Ltac run_handler :=
  unfold POST, try_catch, POST_try, bind, await, console_log, console_error,
    emit, now, ret.

Ltac same_trace :=
  cbn [trace ticks]; repeat rewrite <- app_assoc; reflexivity.

Lemma POST_auth_thrown (e : Fault.t) :
  auth w = Thrown e ->
  POST mockFooter w st
  = (Returned (classify e),
     {| trace := trace st ++ [EvAuth; EvLogError e]; ticks := ticks st |}).
Proof.
  intros Hauth. run_handler. rewrite Hauth. cbn beta iota.
  f_equal. f_equal. same_trace.
Qed.

Lemma POST_unauthenticated (a : AuthObject) :
  auth w = Returned a ->
  truthy (userId a) = false ->
  POST mockFooter w st
  = (Returned unauthenticated,
     {| trace := trace st ++ [EvAuth]; ticks := ticks st |}).
Proof.
  intros Hauth Hid. run_handler. rewrite Hauth. cbn beta iota.
  rewrite Hid. cbn beta iota delta [negb]. reflexivity.
Qed.

Lemma POST_body_thrown (a : AuthObject) (e : Fault.t) :
  auth w = Returned a ->
  truthy (userId a) = true ->
  request_json w = Thrown e ->
  POST mockFooter w st
  = (Returned (classify e),
     {| trace := trace st ++ [EvAuth; EvRequestJson; EvLogError e];
        ticks := ticks st |}).
Proof.
  intros Hauth Hid Hreq. run_handler. rewrite Hauth. cbn beta iota.
  rewrite Hid. cbn beta iota delta [negb]. rewrite Hreq. cbn beta iota.
  f_equal. f_equal. same_trace.
Qed.

Lemma POST_over_budget (a : AuthObject) (req : EnhancementRequest) :
  auth w = Returned a ->
  truthy (userId a) = true ->
  request_json w = Returned req ->
  overBudget (estimatedTokens (originalContent req))
    (Z.of_N (maxInputTokens (chosenConfig w))) = true ->
  POST mockFooter w st
  = (Returned
       {| body :=
            [("success", JBool false);
             ("error", JStr (tooLargeMessage
                               (estimatedTokens (originalContent req))
                               (Z.of_N (maxInputTokens (chosenConfig w)))));
             ("estimatedTokens", JNum (estimatedTokens (originalContent req)));
             ("maxTokens", JNum (Z.of_N (maxInputTokens (chosenConfig w)) * 4))];
          status := 400 |},
     {| trace := trace st ++ gateEvents w req; ticks := ticks st |}).
Proof.
  intros Hauth Hid Hreq Hover. run_handler. rewrite Hauth. cbn beta iota.
  rewrite Hid. cbn beta iota delta [negb]. rewrite Hreq. cbn beta iota zeta.
  fold (chosenModel w). fold (chosenConfig w). rewrite Hover.
  f_equal. f_equal. unfold gateEvents. same_trace.
Qed.

Lemma POST_placeholder (a : AuthObject) (req : EnhancementRequest) :
  auth w = Returned a ->
  truthy (userId a) = true ->
  request_json w = Returned req ->
  overBudget (estimatedTokens (originalContent req))
    (Z.of_N (maxInputTokens (chosenConfig w))) = false ->
  truthy (OPENAI_API_KEY w) = false ->
  POST mockFooter w st
  = (Returned
       {| body :=
            [("success", JBool true);
             ("enhancedContent",
              JStr (mockEnhancedContent mockFooter (subject req)
                      (originalContent req)));
             ("processingTime", JNum 1000);
             ("wordCount",
              JNum (Z.of_nat
                      (List.length
                         (split_spaces
                            (mockEnhancedContent mockFooter (subject req)
                               (originalContent req))))))];
          status := 200 |},
     {| trace := trace st ++ gateEvents w req; ticks := ticks st |}).
Proof.
  intros Hauth Hid Hreq Hover Hkey. run_handler. rewrite Hauth. cbn beta iota.
  rewrite Hid. cbn beta iota delta [negb]. rewrite Hreq. cbn beta iota zeta.
  fold (chosenModel w). fold (chosenConfig w). rewrite Hover, Hkey. cbn beta iota zeta delta [negb].
  f_equal. f_equal. unfold gateEvents. same_trace.
Qed.

Lemma POST_completed (a : AuthObject) (req : EnhancementRequest)
  (completion : Chat.Completion) :
  auth w = Returned a ->
  truthy (userId a) = true ->
  request_json w = Returned req ->
  overBudget (estimatedTokens (originalContent req))
    (Z.of_N (maxInputTokens (chosenConfig w))) = false ->
  truthy (OPENAI_API_KEY w) = true ->
  create w (sentParams w a req) = Returned completion ->
  POST mockFooter w st
  = (Returned
       {| body :=
            [("success", JBool true);
             ("enhancedContent", JStr (completionText completion));
             ("processingTime",
              JNum (Date_now w (S (ticks st)) - Date_now w (ticks st)));
             ("wordCount",
              JNum (Z.of_nat
                      (List.length (split_spaces (completionText completion)))))];
          status := 200 |},
     {| trace := trace st ++ gateEvents w req
                 ++ [EvNow; EvCreate (sentParams w a req); EvNow];
        ticks := S (S (ticks st)) |}).
Proof.
  intros Hauth Hid Hreq Hover Hkey Hcreate. run_handler.
  rewrite Hauth. cbn beta iota.
  rewrite Hid. cbn beta iota delta [negb]. rewrite Hreq. cbn beta iota zeta.
  fold (chosenModel w). fold (chosenConfig w). rewrite Hover, Hkey.
  cbn beta iota zeta delta [negb]. fold (sentParams w a req). rewrite Hcreate.
  cbn beta iota. f_equal. f_equal. unfold gateEvents. same_trace.
Qed.

Lemma POST_provider_fault (a : AuthObject) (req : EnhancementRequest)
  (e : Fault.t) :
  auth w = Returned a ->
  truthy (userId a) = true ->
  request_json w = Returned req ->
  overBudget (estimatedTokens (originalContent req))
    (Z.of_N (maxInputTokens (chosenConfig w))) = false ->
  truthy (OPENAI_API_KEY w) = true ->
  create w (sentParams w a req) = Thrown e ->
  POST mockFooter w st
  = (Returned (classify e),
     {| trace := trace st ++ gateEvents w req
                 ++ [EvNow; EvCreate (sentParams w a req); EvLogError e];
        ticks := S (ticks st) |}).
Proof.
  intros Hauth Hid Hreq Hover Hkey Hcreate. run_handler.
  rewrite Hauth. cbn beta iota.
  rewrite Hid. cbn beta iota delta [negb]. rewrite Hreq. cbn beta iota zeta.
  fold (chosenModel w). fold (chosenConfig w). rewrite Hover, Hkey.
  cbn beta iota zeta delta [negb]. fold (sentParams w a req). rewrite Hcreate.
  cbn beta iota. f_equal. f_equal. unfold gateEvents. same_trace.
Qed.

End Paths.

(** ** Facts shared by the theorems below *)

Lemma mem_spec (x : jsstring) (l : list jsstring) :
  mem x l = true <-> In x l.
Proof.
  unfold mem. rewrite existsb_exists. split.
  - intros [y [Hin Heq]]. apply eqb_eq in Heq. now subst.
  - intros Hin. exists x. split; [exact Hin | now apply eqb_eq].
Qed.

Lemma sentPrompts_app (t1 t2 : list Event) :
  sentPrompts (t1 ++ t2) = sentPrompts t1 ++ sentPrompts t2.
Proof.
  induction t1 as [|ev t1 IH]; [reflexivity|].
  destruct ev; cbn [app sentPrompts]; rewrite IH;
    [| | | | apply app_assoc |]; reflexivity.
Qed.

Lemma providerCalls_gate (w : World) (req : EnhancementRequest) (t : list Event) :
  providerCalls (t ++ gateEvents w req) = providerCalls t.
Proof.
  unfold providerCalls. rewrite filter_app. cbn. apply app_nil_r.
Qed.

(** The prompt is its six sections, in order. *)
Lemma prompt_sections (subject originalContent : jsstring)
  (s : EnhancementSettings) :
  composePrompt subject originalContent s
  = Prompt.preamble ++ Prompt.subjectSentence subject ++ Prompt.framing
    ++ Prompt.originalBlock originalContent ++ Prompt.instructionBlock s
    ++ Prompt.closing.
Proof.
  unfold composePrompt, Prompt.preamble, Prompt.subjectSentence,
    Prompt.framing, Prompt.originalBlock, Prompt.instructionBlock,
    Prompt.instructions, Prompt.closing.
  cbn zeta. repeat rewrite <- app_assoc. reflexivity.
Qed.

(** The placeholder document is its six sections, in order. *)
Lemma mock_sections (mockFooter subject originalContent : jsstring) :
  mockEnhancedContent mockFooter subject originalContent
  = Mock.heading subject ++ Mock.notice ++ Mock.echo originalContent
    ++ Mock.questions ++ Mock.terms ++ Mock.rule mockFooter.
Proof.
  unfold mockEnhancedContent, Mock.heading, Mock.notice, Mock.echo,
    Mock.questions, Mock.terms, Mock.rule.
  repeat rewrite <- app_assoc. reflexivity.
Qed.

Lemma classify_failure (e : Fault.t) :
  field "success" (body (classify e)) = Some (JBool false).
Proof.
  unfold classify.
  destruct (is_string _ _); [|destruct (is_number _ _)]; reflexivity.
Qed.

Lemma is_string_spec (f : FaultField) (s : jsstring) :
  is_string f s = true <-> f = FString s.
Proof.
  destruct f as [|c|n]; simpl; try (split; congruence).
  rewrite eqb_eq. split; congruence.
Qed.

Lemma is_number_spec (f : FaultField) (n : Z) :
  is_number f n = true <-> f = FNumber n.
Proof.
  destruct f as [|c|m]; simpl; try (split; congruence).
  rewrite Z.eqb_eq. split; congruence.
Qed.

(** Once the handler reaches the provider, it sends it exactly one prompt,
    whatever the provider then answers. *)
Lemma POST_sends_prompt (mockFooter : jsstring) (w : World) (st : State)
  (a : AuthObject) (req : EnhancementRequest) :
  reachesProvider w a req ->
  sentPrompts (trace (snd (POST mockFooter w st)))
  = sentPrompts (trace st)
    ++ [composePrompt (subject req) (originalContent req)
          (effectiveSettings (isPaid a) (enhancementSettings req))].
Proof.
  intros (Hauth & Hid & Hreq & Hover & Hkey).
  destruct (create w (sentParams w a req)) as [completion|e] eqn:Hcreate.
  - rewrite POST_completed with (a := a) (req := req) (completion := completion);
      try assumption.
    cbn [snd trace]. rewrite !sentPrompts_app. reflexivity.
  - rewrite POST_provider_fault with (a := a) (req := req) (e := e);
      try assumption.
    cbn [snd trace]. rewrite !sentPrompts_app. reflexivity.
Qed.

Lemma returned_response (A : Type) (x y : A) (s s' : State) :
  (Returned x, s) = (Returned y, s') -> y = x.
Proof. intros H. now injection H. Qed.

(** The handler answers every request: nothing escapes its [catch]. *)
Lemma POST_returns (mockFooter : jsstring) (w : World) (st : State) :
  exists (resp : Response) (st' : State),
    POST mockFooter w st = (Returned resp, st').
Proof.
  destruct (auth w) as [a|e] eqn:Hauth.
  2: { eexists; eexists; eapply POST_auth_thrown; eassumption. }
  destruct (truthy (userId a)) eqn:Hid.
  2: { eexists; eexists; eapply POST_unauthenticated; eassumption. }
  destruct (request_json w) as [req|e] eqn:Hreq.
  2: { eexists; eexists; eapply POST_body_thrown; eassumption. }
  destruct (overBudget (estimatedTokens (originalContent req))
              (Z.of_N (maxInputTokens (chosenConfig w)))) eqn:Hover.
  1: { eexists; eexists; eapply POST_over_budget; eassumption. }
  destruct (truthy (OPENAI_API_KEY w)) eqn:Hkey.
  2: { eexists; eexists; eapply POST_placeholder; eassumption. }
  destruct (create w (sentParams w a req)) as [completion|e] eqn:Hcreate.
  - eexists; eexists; eapply POST_completed; eassumption.
  - eexists; eexists; eapply POST_provider_fault; eassumption.
Qed.

(** With a key in the environment the module evaluates, and a served
    request is a run of the handler. *)
Lemma serve_loaded (mockFooter : jsstring) (w : World) (st : State)
  (key : jsstring) :
  OPENAI_API_KEY w = Some key ->
  serve mockFooter w st = POST mockFooter w st.
Proof.
  intros Hkey. unfold serve, route_module. now rewrite Hkey.
Qed.

(** Without one it does not, and no handler runs. *)
Lemma serve_unloaded (mockFooter : jsstring) (w : World) (st : State) :
  OPENAI_API_KEY w = None ->
  serve mockFooter w st = (Thrown OpenAI.missingCredentials, st).
Proof.
  intros Hkey. unfold serve, route_module. now rewrite Hkey.
Qed.

(** ** Settings normalizer *)

(** C1.  A caller on none of the plans student, pro and premium gets exactly
    the basic preset, whatever settings the request carried; a caller on one
    of those plans gets the requested settings unchanged. *)
Theorem effective_settings_by_plan
  (a : AuthObject) (requested : EnhancementSettings) :
  (hasPlan a "student" = false ->
   hasPlan a "pro" = false ->
   hasPlan a "premium" = false ->
   effectiveSettings (isPaid a) requested
   = {| includeDefinitions := true;
        generateQuestions := false;
        createSummary := false;
        addExamples := false;
        structureLevel := basic;
        autoGenerateFlashcards := false |})
  /\ (hasPlan a "student" = true \/ hasPlan a "pro" = true
      \/ hasPlan a "premium" = true ->
      effectiveSettings (isPaid a) requested = requested).
Proof.
  unfold isPaid, isStudent, isPro. split.
  - intros -> -> ->. reflexivity.
  - intros [-> | [-> | ->]]; cbn [orb effectiveSettings].
    + reflexivity.
    + now rewrite orb_true_r.
    + now rewrite !orb_true_r.
Qed.

(** ** Budget gate *)

(** C2.  The estimate is the ceiling of a quarter of the content's length:
    the least integer whose fourfold reaches the length.  Lengths 0, 1, 4 and
    5 give 0, 1, 1 and 2, and an empty content is never over budget. *)
Theorem estimated_tokens_ceiling (content : jsstring) :
  let n := Z.of_nat (List.length content) in
  let e := estimatedTokens content in
  (4 * (e - 1) < n <= 4 * e)%Z
  /\ e = Qceiling (n # 4)
  /\ (List.length content = 0 -> e = 0%Z)
  /\ (List.length content = 1 -> e = 1%Z)
  /\ (List.length content = 4 -> e = 1%Z)
  /\ (List.length content = 5 -> e = 2%Z)
  /\ (List.length content = 0 ->
      forall modelConfig : ModelConfig,
        overBudget e (Z.of_N (maxInputTokens modelConfig)) = false).
Proof.
  intros n e. subst e. unfold estimatedTokens. fold n. rewrite ceil_quarter.
  repeat split.
  - Z.div_mod_to_equations. lia.
  - Z.div_mod_to_equations. lia.
  - unfold Qceiling, Qfloor, Qopp. cbn [Qnum Qden].
    Z.div_mod_to_equations. lia.
  - intros H. subst n. rewrite H. reflexivity.
  - intros H. subst n. rewrite H. reflexivity.
  - intros H. subst n. rewrite H. reflexivity.
  - intros H. subst n. rewrite H. reflexivity.
  - intros H modelConfig. subst n. rewrite H. unfold overBudget.
    apply Z.ltb_ge. change ((Z.of_nat 0 + 3) / 4)%Z with 0%Z. lia.
Qed.

(** ** Authentication and budget rejection *)

(** C7.  When [auth()] resolves without a user identifier, the handler
    answers 401 with the body [{success: false, error: "Not authenticated"}],
    and [auth()] is the only call it has made: the request body is not read,
    nothing is logged, the provider is not called. *)
Theorem unauthenticated_401
  (mockFooter : jsstring) (w : World) (st : State) (a : AuthObject) :
  auth w = Returned a ->
  truthy (userId a) = false ->
  POST mockFooter w st
  = (Returned {| body := [("success", JBool false);
                          ("error", JStr (lit "Not authenticated"))];
                 status := 401 |},
     {| trace := trace st ++ [EvAuth]; ticks := ticks st |}).
Proof.
  intros Hauth Hid. now apply POST_unauthenticated with (a := a).
Qed.

(** C3.  An authenticated request whose estimate exceeds the model's input
    ceiling is answered 400 with [success: false], the estimate, and
    [maxTokens] equal to four times the ceiling; the handler has only
    authenticated, read the body and logged, and has not called the
    provider. *)
Theorem over_budget_rejected
  (mockFooter : jsstring) (w : World) (st : State)
  (a : AuthObject) (req : EnhancementRequest) :
  auth w = Returned a ->
  truthy (userId a) = true ->
  request_json w = Returned req ->
  (Z.of_N (maxInputTokens (chosenConfig w))
   < estimatedTokens (originalContent req))%Z ->
  exists (resp : Response) (st' : State),
    POST mockFooter w st = (Returned resp, st')
    /\ status resp = 400%N
    /\ field "success" (body resp) = Some (JBool false)
    /\ field "estimatedTokens" (body resp)
       = Some (JNum (estimatedTokens (originalContent req)))
    /\ field "maxTokens" (body resp)
       = Some (JNum (Z.of_N (maxInputTokens (chosenConfig w)) * 4))
    /\ trace st' = trace st ++ gateEvents w req
    /\ providerCalls (trace st') = providerCalls (trace st).
Proof.
  intros Hauth Hid Hreq Hover.
  apply Z.ltb_lt in Hover.
  eexists. eexists. split.
  - apply POST_over_budget with (a := a);
      [exact Hauth | exact Hid | exact Hreq | exact Hover].
  - cbn [status body trace]. repeat split.
    unfold providerCalls. rewrite filter_app. cbn. apply app_nil_r.
Qed.

(** ** Placeholder path *)

(** C4.  The placeholder is not served when no credential is configured.
    With [OPENAI_API_KEY] unset the module-level [new OpenAI] throws, so the
    route module does not evaluate and a request gets no response from the
    handler at all, in particular not the 200 placeholder that the branch
    of lines 69-96 and its comment intend for that case. *)
Theorem placeholder_not_served_without_key
  (mockFooter : jsstring) (w : World) (st : State) :
  OPENAI_API_KEY w = None ->
  (exists e : Fault.t,
      serve mockFooter w st = (Thrown e, st)
      /\ Fault.code e = FAbsent /\ Fault.status e = FAbsent)
  /\ forall (resp : Response) (st' : State),
       serve mockFooter w st <> (Returned resp, st').
Proof.
  intros Hkey. rewrite (serve_unloaded mockFooter w st Hkey). split.
  - exists OpenAI.missingCredentials. repeat split.
  - intros resp st' H. discriminate H.
Qed.

(** The placeholder branch is entered only with a key that is set but
    empty.  Then an authenticated request within budget is answered with
    [success: true], [processingTime: 1000], the placeholder document, and
    the number of pieces the document splits into on white space.  The
    document depends on the subject and the content only; it opens with the
    heading made from the subject and carries the notice, the content
    verbatim, the three questions and the two term lines, in this order.
    The provider is not called. *)
Lemma placeholder_with_empty_key
  (mockFooter : jsstring) (w : World) (st : State)
  (a : AuthObject) (req : EnhancementRequest) :
  auth w = Returned a ->
  truthy (userId a) = true ->
  request_json w = Returned req ->
  (estimatedTokens (originalContent req)
   <= Z.of_N (maxInputTokens (chosenConfig w)))%Z ->
  OPENAI_API_KEY w = Some [] ->
  let doc := mockEnhancedContent mockFooter (subject req) (originalContent req) in
  exists (resp : Response) (st' : State),
    serve mockFooter w st = (Returned resp, st')
    /\ status resp = 200%N
    /\ body resp
       = [("success", JBool true);
          ("enhancedContent", JStr doc);
          ("processingTime", JNum 1000);
          ("wordCount", JNum (Z.of_nat (List.length (split_spaces doc))))]
    /\ doc = (lit "# Enhanced: " ++ subject req ++ LF ++ LF)
             ++ Mock.notice
             ++ (lit "## Original Content" ++ LF ++ originalContent req
                 ++ LF ++ LF)
             ++ Mock.questions ++ Mock.terms ++ Mock.rule mockFooter
    /\ contains doc (lit "# Enhanced: " ++ subject req)
    /\ contains doc (lit "This is a mock enhancement since no OpenAI API key is configured.")
    /\ contains doc (originalContent req)
    /\ contains doc (lit "1. What are the main points covered in this content?" ++ LF
                     ++ lit "2. How can you apply these concepts in practice?" ++ LF
                     ++ lit "3. What questions do you have about this material?" ++ LF)
    /\ contains doc (lit "- **Term**: Definition would appear here with real API" ++ LF
                     ++ lit "- **Concept**: Explanation would appear here with real API" ++ LF)
    /\ trace st' = trace st ++ gateEvents w req
    /\ providerCalls (trace st') = providerCalls (trace st).
Proof.
  intros Hauth Hid Hreq Hfits Hkey doc.
  apply Z.ltb_ge in Hfits.
  rewrite (serve_loaded mockFooter w st Hkey).
  eexists. eexists. split.
  { apply POST_placeholder with (a := a);
      [exact Hauth | exact Hid | exact Hreq | exact Hfits | now rewrite Hkey]. }
  cbn [status body trace]. fold doc.
  split; [reflexivity|]. split; [reflexivity|].
  split; [apply mock_sections|].
  assert (Hdoc := mock_sections mockFooter (subject req) (originalContent req)).
  fold doc in Hdoc.
  unfold Mock.heading, Mock.notice, Mock.echo, Mock.questions, Mock.terms in Hdoc.
  repeat split.
  - exists [], (LF ++ LF ++ Mock.notice ++ Mock.echo (originalContent req)
                ++ Mock.questions ++ Mock.terms ++ Mock.rule mockFooter).
    rewrite Hdoc. unfold Mock.heading, Mock.notice, Mock.echo, Mock.questions,
      Mock.terms. repeat rewrite <- app_assoc. reflexivity.
  - exists (Mock.heading (subject req) ++ lit "## Summary" ++ LF),
      (lit " Please add your OpenAI API key to the .env.local file for full functionality."
       ++ LF ++ LF ++ Mock.echo (originalContent req)
       ++ Mock.questions ++ Mock.terms ++ Mock.rule mockFooter).
    rewrite Hdoc. unfold Mock.heading, Mock.notice, Mock.echo, Mock.questions,
      Mock.terms. repeat rewrite <- app_assoc. reflexivity.
  - exists (Mock.heading (subject req) ++ Mock.notice
            ++ lit "## Original Content" ++ LF),
      (LF ++ LF ++ Mock.questions ++ Mock.terms ++ Mock.rule mockFooter).
    rewrite Hdoc. unfold Mock.heading, Mock.notice, Mock.echo, Mock.questions,
      Mock.terms. repeat rewrite <- app_assoc. reflexivity.
  - exists (Mock.heading (subject req) ++ Mock.notice
            ++ Mock.echo (originalContent req)
            ++ lit "## Study Questions" ++ LF),
      (LF ++ Mock.terms ++ Mock.rule mockFooter).
    rewrite Hdoc. unfold Mock.heading, Mock.notice, Mock.echo, Mock.questions,
      Mock.terms. repeat rewrite <- app_assoc. reflexivity.
  - exists (Mock.heading (subject req) ++ Mock.notice
            ++ Mock.echo (originalContent req) ++ Mock.questions
            ++ lit "## Key Terms" ++ LF),
      (LF ++ Mock.rule mockFooter).
    rewrite Hdoc. unfold Mock.heading, Mock.notice, Mock.echo, Mock.questions,
      Mock.terms. repeat rewrite <- app_assoc. reflexivity.
  - apply providerCalls_gate.
Qed.

(** ** Fault classification *)

(** C5.  When the provider call throws, the handler answers according to the
    thrown value, in this order: the code [rate_limit_exceeded] gives 429
    with the rate-limit body; otherwise the status 429 gives 400 with the
    content-too-large body; anything else gives 500 with one fixed body, in
    which nothing of the thrown value appears. *)
Theorem provider_fault_classified
  (mockFooter : jsstring) (w : World) (st : State)
  (a : AuthObject) (req : EnhancementRequest) (e : Fault.t) :
  reachesProvider w a req ->
  create w (sentParams w a req) = Thrown e ->
  exists (resp : Response) (st' : State),
    POST mockFooter w st = (Returned resp, st')
    /\ (Fault.code e = FString (lit "rate_limit_exceeded") ->
        resp = {| body :=
                    [("success", JBool false);
                     ("error", JStr (lit "Rate limit exceeded. Please wait a moment and try again, or reduce the content size."));
                     ("details", JStr (lit "OpenAI rate limit hit. Try with shorter content."))];
                  status := 429 |})
    /\ (Fault.code e <> FString (lit "rate_limit_exceeded") ->
        Fault.status e = FNumber 429 ->
        resp = {| body :=
                    [("success", JBool false);
                     ("error", JStr (lit "Content too large for processing. Please reduce the content size and try again."));
                     ("details", JStr (lit "Token limit exceeded. Try with shorter content."))];
                  status := 400 |})
    /\ (Fault.code e <> FString (lit "rate_limit_exceeded") ->
        Fault.status e <> FNumber 429 ->
        resp = {| body :=
                    [("success", JBool false);
                     ("error", JStr (lit "Failed to enhance note. Please try again."))];
                  status := 500 |}).
Proof.
  intros (Hauth & Hid & Hreq & Hover & Hkey) Hcreate.
  exists (classify e). eexists. split.
  { apply POST_provider_fault with (a := a) (req := req); assumption. }
  unfold classify. repeat split.
  - intros Hcode. apply is_string_spec in Hcode. now rewrite Hcode.
  - intros Hcode Hstatus.
    destruct (is_string (Fault.code e) (lit "rate_limit_exceeded")) eqn:E.
    + apply is_string_spec in E. contradiction.
    + apply is_number_spec in Hstatus. now rewrite Hstatus.
  - intros Hcode Hstatus.
    destruct (is_string (Fault.code e) (lit "rate_limit_exceeded")) eqn:E.
    + apply is_string_spec in E. contradiction.
    + destruct (is_number (Fault.status e) 429) eqn:E'.
      * apply is_number_spec in E'. contradiction.
      * reflexivity.
Qed.

(** ** Prompt composer *)

Lemma instruction_tests (s : EnhancementSettings) :
  mem enhancementPrompts.structure (enhancements s)
  = match structureLevel s with comprehensive => true | _ => false end
  /\ mem detailedStructure (enhancements s)
     = match structureLevel s with detailed => true | _ => false end
  /\ includes (Prompt.instructionBlock s) enhancementPrompts.structure
     = match structureLevel s with comprehensive => true | _ => false end
  /\ includes (Prompt.instructionBlock s) detailedStructure
     = match structureLevel s with detailed => true | _ => false end
  /\ includes (composePrompt [] [] s) enhancementPrompts.structure
     = match structureLevel s with comprehensive => true | _ => false end
  /\ includes (composePrompt [] [] s) detailedStructure
     = match structureLevel s with detailed => true | _ => false end.
Proof.
  destruct s as [d q su ex level fl].
  destruct d, q, su, ex, level, fl; vm_compute; repeat split.
Qed.

(** C6.  The full structuring instruction is among the instructions exactly
    when the level is comprehensive, the lighter one exactly when the level
    is detailed; this holds of the array of instructions, of the text of
    the instruction block, and of the whole prompt around an empty subject
    and an empty content (the fixed text of the prompt holds neither).  So
    the block never has both, and has neither at level basic. *)
Theorem structure_instructions_exclusive (s : EnhancementSettings) :
  (In enhancementPrompts.structure (enhancements s)
   <-> structureLevel s = comprehensive)
  /\ (In detailedStructure (enhancements s)
      <-> structureLevel s = detailed)
  /\ (contains (Prompt.instructionBlock s) enhancementPrompts.structure
      <-> structureLevel s = comprehensive)
  /\ (contains (Prompt.instructionBlock s) detailedStructure
      <-> structureLevel s = detailed)
  /\ (contains (composePrompt [] [] s) enhancementPrompts.structure
      <-> structureLevel s = comprehensive)
  /\ (contains (composePrompt [] [] s) detailedStructure
      <-> structureLevel s = detailed)
  /\ ~ (contains (Prompt.instructionBlock s) enhancementPrompts.structure
        /\ contains (Prompt.instructionBlock s) detailedStructure)
  /\ (structureLevel s = basic ->
      ~ contains (Prompt.instructionBlock s) enhancementPrompts.structure
      /\ ~ contains (Prompt.instructionBlock s) detailedStructure).
Proof.
  destruct (instruction_tests s) as (Hm1 & Hm2 & Hi1 & Hi2 & Hp1 & Hp2).
  assert (A1 : In enhancementPrompts.structure (enhancements s)
               <-> structureLevel s = comprehensive).
  { rewrite <- mem_spec, Hm1. destruct (structureLevel s); split; congruence. }
  assert (A2 : In detailedStructure (enhancements s)
               <-> structureLevel s = detailed).
  { rewrite <- mem_spec, Hm2. destruct (structureLevel s); split; congruence. }
  assert (A3 : contains (Prompt.instructionBlock s) enhancementPrompts.structure
               <-> structureLevel s = comprehensive).
  { rewrite <- includes_spec, Hi1. destruct (structureLevel s); split; congruence. }
  assert (A4 : contains (Prompt.instructionBlock s) detailedStructure
               <-> structureLevel s = detailed).
  { rewrite <- includes_spec, Hi2. destruct (structureLevel s); split; congruence. }
  split; [exact A1|]. split; [exact A2|]. split; [exact A3|].
  split; [exact A4|].
  split.
  { rewrite <- includes_spec, Hp1. destruct (structureLevel s); split; congruence. }
  split.
  { rewrite <- includes_spec, Hp2. destruct (structureLevel s); split; congruence. }
  split.
  - intros [H1 H2]. apply A3 in H1. apply A4 in H2. congruence.
  - intros Hbasic. split; intros H; [apply A3 in H | apply A4 in H]; congruence.
Qed.

(** C8.  The prompt is the concatenation of its six sections in the order
    preamble, subject sentence, framing sentence, original content,
    instruction block, closing directives.  It is a function of the subject,
    the content and the effective settings alone: two requests that agree on
    these three and reach the provider send it the same prompt, whatever
    else differs between them (identity, model, clock, provider, what the
    handler did before). *)
Theorem prompt_deterministic :
  (forall (subject originalContent : jsstring) (s : EnhancementSettings),
      composePrompt subject originalContent s
      = Prompt.preamble ++ Prompt.subjectSentence subject ++ Prompt.framing
        ++ Prompt.originalBlock originalContent ++ Prompt.instructionBlock s
        ++ Prompt.closing)
  /\ (forall (mockFooter : jsstring) (w1 w2 : World)
        (a1 a2 : AuthObject) (req1 req2 : EnhancementRequest),
         reachesProvider w1 a1 req1 ->
         reachesProvider w2 a2 req2 ->
         subject req1 = subject req2 ->
         originalContent req1 = originalContent req2 ->
         effectiveSettings (isPaid a1) (enhancementSettings req1)
         = effectiveSettings (isPaid a2) (enhancementSettings req2) ->
         sentPrompts (trace (snd (POST mockFooter w1 initial)))
         = sentPrompts (trace (snd (POST mockFooter w2 initial)))
         /\ sentPrompts (trace (snd (POST mockFooter w1 initial)))
            = [composePrompt (subject req1) (originalContent req1)
                 (effectiveSettings (isPaid a1) (enhancementSettings req1))]).
Proof.
  split.
  - apply prompt_sections.
  - intros mockFooter w1 w2 a1 a2 req1 req2 H1 H2 Hsubject Hcontent Hsettings.
    rewrite (@POST_sends_prompt mockFooter w1 initial a1 req1 H1).
    rewrite (@POST_sends_prompt mockFooter w2 initial a2 req2 H2).
    rewrite Hsubject, Hcontent, Hsettings. split; reflexivity.
Qed.

(** C9.  Composition cannot fail: every request that reaches the provider
    does so with the composed prompt, and the handler then returns a
    response.  With definitions, questions, summary and examples off and the
    level basic, no instruction is pushed, and the instruction block is its
    header line followed by an empty line. *)
Theorem composer_total_empty_block :
  (forall (mockFooter : jsstring) (w : World) (st : State)
      (a : AuthObject) (req : EnhancementRequest),
      reachesProvider w a req ->
      exists (resp : Response) (st' : State),
        POST mockFooter w st = (Returned resp, st')
        /\ sentPrompts (trace st')
           = sentPrompts (trace st)
             ++ [composePrompt (subject req) (originalContent req)
                   (effectiveSettings (isPaid a) (enhancementSettings req))])
  /\ (forall s : EnhancementSettings,
         includeDefinitions s = false ->
         generateQuestions s = false ->
         createSummary s = false ->
         addExamples s = false ->
         structureLevel s = basic ->
         enhancements s = []
         /\ Prompt.instructions s = []
         /\ forall subject originalContent : jsstring,
             composePrompt subject originalContent s
             = Prompt.preamble ++ Prompt.subjectSentence subject
               ++ Prompt.framing ++ Prompt.originalBlock originalContent
               ++ (lit "Enhancement instructions:" ++ LF ++ LF ++ LF)
               ++ Prompt.closing).
Proof.
  split.
  - intros mockFooter w st a req Hreach.
    destruct (POST_returns mockFooter w st) as (resp & st' & Hrun).
    exists resp, st'. split; [exact Hrun|].
    rewrite <- (@POST_sends_prompt mockFooter w st a req Hreach), Hrun. reflexivity.
  - intros s Hd Hq Hs He Hl.
    assert (Hnone : enhancements s = []).
    { unfold enhancements. now rewrite Hd, Hq, Hs, He, Hl. }
    split; [exact Hnone|]. split.
    + unfold Prompt.instructions. now rewrite Hnone.
    + intros subject originalContent. rewrite prompt_sections.
      unfold Prompt.instructionBlock, Prompt.instructions.
      now rewrite Hnone.
Qed.

(** ** Word count *)

(** C10.  The handler always returns a response, and one with
    [success: true] carries a [wordCount] of at least 1.  Splitting on white
    space never gives an empty array; when the provider returns no content,
    [enhancedContent] is the empty string and [wordCount] is 1. *)
Theorem word_count_positive
  (mockFooter : jsstring) (w : World) (st : State) :
  (exists (resp : Response) (st' : State),
      POST mockFooter w st = (Returned resp, st'))
  /\ (forall (resp : Response) (st' : State),
         POST mockFooter w st = (Returned resp, st') ->
         field "success" (body resp) = Some (JBool true) ->
         exists n : nat,
           field "wordCount" (body resp) = Some (JNum (Z.of_nat n))
           /\ 1 <= n)
  /\ (forall s : jsstring, 1 <= List.length (split_spaces s))
  /\ (forall (a : AuthObject) (req : EnhancementRequest)
        (completion : Chat.Completion),
         reachesProvider w a req ->
         create w (sentParams w a req) = Returned completion ->
         completionText completion = [] ->
         forall (resp : Response) (st' : State),
           POST mockFooter w st = (Returned resp, st') ->
           field "success" (body resp) = Some (JBool true)
           /\ field "enhancedContent" (body resp) = Some (JStr [])
           /\ field "wordCount" (body resp) = Some (JNum 1)).
Proof.
  split; [apply POST_returns|]. split; [|split; [apply split_spaces_nonempty|]].
  - intros resp st' Hrun Hsuccess.
    destruct (auth w) as [a|e] eqn:Hauth.
    2: { rewrite (@POST_auth_thrown mockFooter w st e Hauth) in Hrun.
         apply returned_response in Hrun. subst resp. rewrite classify_failure in Hsuccess.
         discriminate. }
    destruct (truthy (userId a)) eqn:Hid.
    2: { rewrite (@POST_unauthenticated mockFooter w st a Hauth Hid) in Hrun.
         apply returned_response in Hrun. subst resp. discriminate. }
    destruct (request_json w) as [req|e] eqn:Hreq.
    2: { rewrite (@POST_body_thrown mockFooter w st a e Hauth Hid Hreq) in Hrun.
         apply returned_response in Hrun. subst resp. rewrite classify_failure in Hsuccess.
         discriminate. }
    destruct (overBudget (estimatedTokens (originalContent req))
                (Z.of_N (maxInputTokens (chosenConfig w)))) eqn:Hover.
    1: { rewrite (@POST_over_budget mockFooter w st a req Hauth Hid Hreq Hover) in Hrun.
         apply returned_response in Hrun. subst resp. discriminate. }
    destruct (truthy (OPENAI_API_KEY w)) eqn:Hkey.
    2: { rewrite (@POST_placeholder mockFooter w st a req Hauth Hid Hreq Hover Hkey)
           in Hrun.
         apply returned_response in Hrun. subst resp. eexists. split; [reflexivity|].
         apply split_spaces_nonempty. }
    destruct (create w (sentParams w a req)) as [completion|e] eqn:Hcreate.
    + rewrite (@POST_completed mockFooter w st a req completion Hauth Hid Hreq Hover Hkey
                 Hcreate)
        in Hrun.
      apply returned_response in Hrun. subst resp. eexists. split; [reflexivity|].
      apply split_spaces_nonempty.
    + rewrite (@POST_provider_fault mockFooter w st a req e Hauth Hid Hreq Hover
                 Hkey Hcreate) in Hrun.
      apply returned_response in Hrun. subst resp. rewrite classify_failure in Hsuccess.
      discriminate.
  - intros a req completion (Hauth & Hid & Hreq & Hover & Hkey) Hcreate Hnone
      resp st' Hrun.
    rewrite (@POST_completed mockFooter w st a req completion Hauth Hid Hreq Hover Hkey
                 Hcreate)
      in Hrun.
    apply returned_response in Hrun. subst resp. rewrite Hnone. repeat split.
Qed.

(** ** The theorems at the sample runs *)

Lemma effective_settings_by_plan_witness :
  effectiveSettings (isPaid Sample.free) Sample.allOn = basicPreset
  /\ effectiveSettings (isPaid Sample.student) Sample.allOn = Sample.allOn.
Proof.
  split.
  - apply (proj1 (effective_settings_by_plan Sample.free Sample.allOn));
      reflexivity.
  - apply (proj2 (effective_settings_by_plan Sample.student Sample.allOn)).
    left. reflexivity.
Defined.

Lemma estimated_tokens_ceiling_witness :
  estimatedTokens [] = 0%Z
  /\ estimatedTokens (lit "a") = 1%Z
  /\ estimatedTokens (lit "note") = 1%Z
  /\ estimatedTokens (lit "notes") = 2%Z
  /\ overBudget (estimatedTokens [])
       (Z.of_N (maxInputTokens (Sample.registry defaultModel))) = false.
Proof.
  destruct (estimated_tokens_ceiling []) as (_ & _ & H0 & _ & _ & _ & Hgate).
  destruct (estimated_tokens_ceiling (lit "a")) as (_ & _ & _ & H1 & _).
  destruct (estimated_tokens_ceiling (lit "note")) as (_ & _ & _ & _ & H4 & _).
  destruct (estimated_tokens_ceiling (lit "notes"))
    as (_ & _ & _ & _ & _ & H5 & _).
  split; [apply H0; reflexivity|].
  split; [apply H1; reflexivity|].
  split; [apply H4; reflexivity|].
  split; [apply H5; reflexivity|].
  apply Hgate. reflexivity.
Defined.

Lemma unauthenticated_401_witness :
  POST [] Sample.signedOut initial
  = (Returned {| body := [("success", JBool false);
                          ("error", JStr (lit "Not authenticated"))];
                 status := 401 |},
     {| trace := [EvAuth]; ticks := 0 |}).
Proof.
  apply (unauthenticated_401 [] Sample.signedOut initial (a := Sample.anonymous));
    reflexivity.
Defined.

(** The scenario of the specification: a free caller, ten thousand
    characters, a ceiling of 2000 tokens. *)
Lemma over_budget_rejected_witness :
  exists (resp : Response) (st' : State),
    POST [] Sample.oversized initial = (Returned resp, st')
    /\ status resp = 400%N
    /\ field "success" (body resp) = Some (JBool false)
    /\ field "estimatedTokens" (body resp) = Some (JNum 2500)
    /\ field "maxTokens" (body resp) = Some (JNum 8000)
    /\ providerCalls (trace st') = [].
Proof.
  assert (Hover : (Z.of_N (maxInputTokens (chosenConfig Sample.oversized))
                   < estimatedTokens (originalContent Sample.long))%Z)
    by (vm_compute; reflexivity).
  destruct (over_budget_rejected [] Sample.oversized initial
              (a := Sample.free) (req := Sample.long)
              eq_refl eq_refl eq_refl Hover)
    as (resp & st' & Hrun & Hstatus & Hsuccess & Hest & Hmax & _ & Hcalls).
  exists resp, st'. repeat split; assumption.
Defined.

(** A signed-in student, a short note, no key in the environment. *)
Lemma placeholder_not_served_without_key_witness :
  (exists e : Fault.t,
      serve [] Sample.noCredential initial = (Thrown e, initial)
      /\ Fault.code e = FAbsent /\ Fault.status e = FAbsent)
  /\ forall (resp : Response) (st' : State),
       serve [] Sample.noCredential initial <> (Returned resp, st').
Proof.
  apply (placeholder_not_served_without_key [] Sample.noCredential initial).
  reflexivity.
Defined.

Lemma provider_fault_classified_witness :
  exists (resp : Response) (st' : State),
    POST [] Sample.throttled initial = (Returned resp, st')
    /\ status resp = 429%N.
Proof.
  assert (Hreach : reachesProvider Sample.throttled Sample.student Sample.short)
    by (repeat split).
  destruct (provider_fault_classified [] initial (e := Sample.rateLimit)
              Hreach eq_refl)
    as (resp & st' & Hrun & Hrate & _).
  exists resp, st'. split; [exact Hrun|]. rewrite (Hrate eq_refl). reflexivity.
Defined.

Lemma structure_instructions_exclusive_witness :
  ~ contains (Prompt.instructionBlock basicPreset) enhancementPrompts.structure
  /\ ~ contains (Prompt.instructionBlock basicPreset) detailedStructure.
Proof.
  apply (structure_instructions_exclusive basicPreset). reflexivity.
Defined.

(** Two runs that differ in credential, model, clock and provider answer. *)
Lemma prompt_deterministic_witness :
  sentPrompts (trace (snd (POST [] Sample.answered initial)))
  = sentPrompts (trace (snd (POST [] Sample.silent initial))).
Proof.
  apply (proj2 prompt_deterministic [] Sample.answered Sample.silent
           Sample.student Sample.student Sample.short Sample.short).
  - repeat split.
  - repeat split.
  - reflexivity.
  - reflexivity.
  - reflexivity.
Defined.

Lemma composer_total_empty_block_witness :
  enhancements Sample.allOff = []
  /\ exists (resp : Response) (st' : State),
       POST [] Sample.answered initial = (Returned resp, st')
       /\ sentPrompts (trace st')
          = [composePrompt (lit "Biology") (lit "Cells divide by mitosis.")
               Sample.allOn].
Proof.
  split.
  - apply (proj2 composer_total_empty_block Sample.allOff); reflexivity.
  - apply (proj1 composer_total_empty_block [] Sample.answered initial
             Sample.student Sample.short).
    repeat split.
Defined.

(** The provider answers without content. *)
Lemma word_count_positive_witness :
  exists (resp : Response) (st' : State),
    POST [] Sample.silent initial = (Returned resp, st')
    /\ field "success" (body resp) = Some (JBool true)
    /\ field "enhancedContent" (body resp) = Some (JStr [])
    /\ field "wordCount" (body resp) = Some (JNum 1).
Proof.
  destruct (word_count_positive [] Sample.silent initial)
    as ((resp & st' & Hrun) & _ & _ & Hnone).
  assert (Hreach : reachesProvider Sample.silent Sample.student Sample.short)
    by (repeat split).
  exists resp, st'. split; [exact Hrun|].
  exact (Hnone Sample.student Sample.short
           {| Chat.choices :=
                [ {| Chat.message := Some {| Chat.reply_content := None |} |} ] |}
           Hreach eq_refl eq_refl resp st' Hrun).
Defined.

(** * Further properties of the route *)

(** ** Splitting on white space *)

Lemma split_from_concat (s piece : jsstring) (in_run : bool) :
  (in_run = true -> piece = []) ->
  List.concat (split_from in_run piece s) = rev piece ++ filter nonspace s.
Proof.
  revert piece in_run; induction s as [|c s IH]; intros piece in_run Hrun.
  - cbn. now rewrite !app_nil_r.
  - cbn [split_from filter]. unfold nonspace at 1.
    destruct (is_space c) eqn:Hc; cbn [negb].
    + destruct in_run.
      * rewrite (Hrun eq_refl). apply IH. reflexivity.
      * cbn [List.concat]. rewrite IH by reflexivity. reflexivity.
    + rewrite IH by discriminate. cbn [rev]. now rewrite <- app_assoc.
Qed.

Lemma split_from_clean (s piece : jsstring) (in_run : bool) :
  forallb nonspace piece = true ->
  Forall (fun p => forallb nonspace p = true) (split_from in_run piece s).
Proof.
  revert piece in_run; induction s as [|c s IH]; intros piece in_run Hpiece.
  - cbn. constructor; [|constructor].
    rewrite forallb_forall in *. intros x Hx. apply Hpiece.
    now apply in_rev.
  - cbn [split_from]. destruct (is_space c) eqn:Hc.
    + destruct in_run; [now apply IH|].
      constructor; [|now apply IH].
      rewrite forallb_forall in *. intros x Hx. apply Hpiece.
      now apply in_rev.
    + apply IH. cbn [forallb]. unfold nonspace at 1. now rewrite Hc.
Qed.

Lemma split_from_word (s piece : jsstring) :
  existsb is_space s = false ->
  split_from false piece s = [rev piece ++ s].
Proof.
  revert piece; induction s as [|c s IH]; intros piece Hs.
  - cbn. now rewrite app_nil_r.
  - cbn [existsb] in Hs. apply orb_false_iff in Hs as [Hc Hs].
    cbn [split_from]. rewrite Hc, IH by exact Hs.
    cbn [rev]. now rewrite <- app_assoc.
Qed.

Lemma split_from_blank (s : jsstring) :
  forallb is_space s = true ->
  split_from true [] s = [[]].
Proof.
  induction s as [|c s IH]; intros Hs; [reflexivity|].
  cbn [forallb] in Hs. apply andb_true_iff in Hs as [Hc Hs].
  cbn [split_from]. rewrite Hc. now apply IH.
Qed.

Lemma split_from_trailing (s piece : jsstring) (in_run : bool) (c : code_unit) :
  is_space c = true ->
  exists init, split_from in_run piece (s ++ [c]) = init ++ [[]].
Proof.
  intros Hc. revert piece in_run; induction s as [|x s IH]; intros piece in_run.
  - cbn [app split_from]. rewrite Hc. destruct in_run.
    + now exists [].
    + now exists [rev piece].
  - cbn [app split_from]. destruct (is_space x).
    + destruct in_run.
      * apply IH.
      * destruct (IH [] true) as [init Hinit]. exists (rev piece :: init).
        now rewrite Hinit.
    + apply IH.
Qed.

(** X1.  [split(/\s+/)] loses nothing but white space: no piece holds a
    white-space code unit, and the pieces put together are the string with
    its white space removed. *)
Theorem split_keeps_the_words (s : jsstring) :
  Forall (fun piece => forallb nonspace piece = true) (split_spaces s)
  /\ List.concat (split_spaces s) = filter nonspace s.
Proof.
  split.
  - now apply split_from_clean.
  - unfold split_spaces. now rewrite split_from_concat.
Qed.

(** X2.  What [wordCount] counts at the edges.  A string without white
    space, the empty string too, is one piece; a non-empty string of white
    space only is two empty pieces; white space at the start leaves an
    empty first piece and white space at the end an empty last piece, each
    of which is counted. *)
Theorem word_count_edges (s : jsstring) :
  (existsb is_space s = false -> split_spaces s = [s])
  /\ (s <> [] -> forallb is_space s = true -> split_spaces s = [[]; []])
  /\ (forall c : code_unit, is_space c = true ->
      exists rest, split_spaces (c :: s) = [] :: rest)
  /\ (forall c : code_unit, is_space c = true ->
      exists init, split_spaces (s ++ [c]) = init ++ [[]]).
Proof.
  unfold split_spaces. repeat apply conj.
  - intros Hs. now rewrite split_from_word.
  - intros Hne Hs. destruct s as [|c s]; [contradiction|].
    cbn [forallb] in Hs. apply andb_true_iff in Hs as [Hc Hs].
    cbn [split_from]. rewrite Hc. now rewrite split_from_blank.
  - intros c Hc. cbn [split_from]. rewrite Hc. eexists. reflexivity.
  - intros c Hc. now apply split_from_trailing.
Qed.

Lemma word_count_edges_witness :
  split_spaces (lit "mitosis") = [lit "mitosis"]
  /\ split_spaces (LF ++ LF) = [[]; []]
  /\ (exists rest, split_spaces (LF ++ lit "cell") = [] :: rest)
  /\ (exists init, split_spaces (lit "cell" ++ LF) = init ++ [[]]).
Proof.
  split; [apply (proj1 (word_count_edges (lit "mitosis"))); reflexivity|].
  split; [apply (proj1 (proj2 (word_count_edges (LF ++ LF))));
          [discriminate | reflexivity]|].
  split.
  - apply (proj1 (proj2 (proj2 (word_count_edges (lit "cell")))) 10%N).
    reflexivity.
  - apply (proj2 (proj2 (proj2 (word_count_edges (lit "cell")))) 10%N).
    reflexivity.
Defined.

(** ** The budget gate as a bound on the length *)

Lemma over_budget_length (content : jsstring) (maxTokens : Z) :
  overBudget (estimatedTokens content) maxTokens = true
  <-> (maxTokens * 4 < Z.of_nat (List.length content))%Z.
Proof.
  unfold overBudget, estimatedTokens. rewrite ceil_quarter, Z.ltb_lt.
  split; intros H; Z.div_mod_to_equations; lia.
Qed.

(** X3.  The gate rejects a content exactly when it is longer than four
    times the input ceiling, the number the 400 response reports as
    [maxTokens].  So a content cut down to that many code units passes, and
    whatever is no longer than a content that passes passes too. *)
Theorem budget_threshold (content : jsstring) (modelConfig : ModelConfig) :
  let maxTokens := Z.of_N (maxInputTokens modelConfig) in
  (overBudget (estimatedTokens content) maxTokens = true
   <-> (maxTokens * 4 < Z.of_nat (List.length content))%Z)
  /\ overBudget
       (estimatedTokens (firstn (Z.to_nat (maxTokens * 4)) content))
       maxTokens = false
  /\ (forall shorter : jsstring,
         List.length shorter <= List.length content ->
         overBudget (estimatedTokens content) maxTokens = false ->
         overBudget (estimatedTokens shorter) maxTokens = false).
Proof.
  intros maxTokens. split; [apply over_budget_length|]. split.
  - apply not_true_is_false. rewrite over_budget_length.
    pose proof (firstn_le_length (Z.to_nat (maxTokens * 4)) content).
    rewrite length_firstn. lia.
  - intros shorter Hlen Hfits. apply not_true_is_false.
    apply not_true_iff_false in Hfits.
    rewrite over_budget_length in *. lia.
Qed.

(** Eight thousand code units pass a ceiling of 2000 tokens, and so does
    anything shorter. *)
Lemma budget_threshold_witness :
  overBudget (estimatedTokens (lit "Cells divide by mitosis."))
    (Z.of_N (maxInputTokens (Sample.registry defaultModel))) = false.
Proof.
  apply (proj2 (proj2 (budget_threshold (repeat 97%N (80 * 100))
                         (Sample.registry defaultModel)))
           (lit "Cells divide by mitosis.")).
  - apply Nat.leb_le. vm_compute. reflexivity.
  - vm_compute. reflexivity.
Defined.

(** ** Every run of the handler *)

Lemma returned_pair (A : Type) (x y : A) (s s' : State) :
  (Returned x, s) = (Returned y, s') -> y = x /\ s' = s.
Proof. intros H. injection H as H1 H2. now split. Qed.

(** Case analysis over the seven ways through the handler: [Hrun], an
    equation [POST f w st = (Returned resp, st')], is replaced by the
    values of [resp] and [st'] on each of them. *)
Ltac handler_paths f w st Hrun :=
  destruct (auth w) as [a|e] eqn:Hauth;
  [ destruct (truthy (userId a)) eqn:Hid;
    [ destruct (request_json w) as [req|e] eqn:Hreq;
      [ destruct (overBudget (estimatedTokens (originalContent req))
                    (Z.of_N (maxInputTokens (chosenConfig w)))) eqn:Hover;
        [ rewrite (@POST_over_budget f w st a req Hauth Hid Hreq Hover) in Hrun
        | destruct (truthy (OPENAI_API_KEY w)) eqn:Hkey;
          [ destruct (create w (sentParams w a req)) as [completion|e]
              eqn:Hcreate;
            [ rewrite (@POST_completed f w st a req completion
                         Hauth Hid Hreq Hover Hkey Hcreate) in Hrun
            | rewrite (@POST_provider_fault f w st a req e
                         Hauth Hid Hreq Hover Hkey Hcreate) in Hrun ]
          | rewrite (@POST_placeholder f w st a req
                       Hauth Hid Hreq Hover Hkey) in Hrun ] ]
      | rewrite (@POST_body_thrown f w st a e Hauth Hid Hreq) in Hrun ]
    | rewrite (@POST_unauthenticated f w st a Hauth Hid) in Hrun ]
  | rewrite (@POST_auth_thrown f w st e Hauth) in Hrun ];
  apply returned_pair in Hrun; destruct Hrun as [-> ->].

Lemma classify_shape (e : Fault.t) :
  In (status (classify e)) [429; 400; 500]%N
  /\ exists msg : jsstring,
       field "error" (body (classify e)) = Some (JStr msg)
       /\ field "enhancedContent" (body (classify e)) = None.
Proof.
  unfold classify.
  destruct (is_string _ _); [|destruct (is_number _ _)];
    (split; [cbn; tauto | eexists; split; reflexivity]).
Qed.

Lemma providerCalls_app (t1 t2 : list Event) :
  providerCalls (t1 ++ t2) = providerCalls t1 ++ providerCalls t2.
Proof. apply filter_app. Qed.

(** A run that reaches the provider calls it once. *)
Lemma POST_calls_provider (mockFooter : jsstring) (w : World) (st : State)
  (a : AuthObject) (req : EnhancementRequest) :
  reachesProvider w a req ->
  providerCalls (trace (snd (POST mockFooter w st)))
  = providerCalls (trace st) ++ [EvCreate (sentParams w a req)].
Proof.
  intros (Hauth & Hid & Hreq & Hover & Hkey).
  destruct (create w (sentParams w a req)) as [completion|e] eqn:Hcreate.
  - rewrite (@POST_completed mockFooter w st a req completion
               Hauth Hid Hreq Hover Hkey Hcreate).
    cbn [snd trace]. rewrite !providerCalls_app. reflexivity.
  - rewrite (@POST_provider_fault mockFooter w st a req e
               Hauth Hid Hreq Hover Hkey Hcreate).
    cbn [snd trace]. rewrite !providerCalls_app. reflexivity.
Qed.

(** X4.  Whatever the collaborators answer, the handler returns a response
    whose status is 200, 400, 401, 429 or 500; [success] is true exactly at
    200; a 200 body is the four fields [success], [enhancedContent],
    [processingTime], [wordCount], and any other body carries an [error]
    text and no [enhancedContent]. *)
Theorem response_shape (mockFooter : jsstring) (w : World) (st : State) :
  exists (resp : Response) (st' : State),
    POST mockFooter w st = (Returned resp, st')
    /\ In (status resp) [200; 400; 401; 429; 500]%N
    /\ field "success" (body resp) = Some (JBool (status resp =? 200)%N)
    /\ (status resp = 200%N ->
        exists (text : jsstring) (time count : Z),
          body resp = [("success", JBool true);
                       ("enhancedContent", JStr text);
                       ("processingTime", JNum time);
                       ("wordCount", JNum count)])
    /\ (status resp <> 200%N ->
        exists msg : jsstring,
          field "error" (body resp) = Some (JStr msg)
          /\ field "enhancedContent" (body resp) = None).
Proof.
  destruct (POST_returns mockFooter w st) as (resp & st' & Hrun).
  exists resp, st'. split; [exact Hrun|].
  assert (Hfault : forall e : Fault.t,
             In (status (classify e)) [200; 400; 401; 429; 500]%N
             /\ field "success" (body (classify e))
                = Some (JBool (status (classify e) =? 200)%N)
             /\ (status (classify e) = 200%N ->
                 exists (text : jsstring) (time count : Z),
                   body (classify e)
                   = [("success", JBool true);
                      ("enhancedContent", JStr text);
                      ("processingTime", JNum time);
                      ("wordCount", JNum count)])
             /\ (status (classify e) <> 200%N ->
                 exists msg : jsstring,
                   field "error" (body (classify e)) = Some (JStr msg)
                   /\ field "enhancedContent" (body (classify e)) = None)).
  { intros e0. destruct (classify_shape e0) as (Hin & Hmsg).
    assert (Hnot : status (classify e0) <> 200%N).
    { cbn in Hin. intros H200. rewrite H200 in Hin.
      destruct Hin as [H|[H|[H|[]]]]; discriminate H. }
    split; [cbn in *; tauto|]. split.
    - rewrite classify_failure. apply N.eqb_neq in Hnot. now rewrite Hnot.
    - split; [intros H; contradiction | intros _; exact Hmsg]. }
  handler_paths mockFooter w st Hrun; try apply Hfault;
    cbn [status body]; (split; [cbn; tauto|]); (split; [reflexivity|]);
    split; intros H; try discriminate H; try (now contradiction H);
    try (eexists; eexists; eexists; reflexivity);
    try (eexists; split; reflexivity).
Qed.

Lemma response_shape_witness :
  exists (resp : Response) (st' : State),
    POST [] Sample.throttled initial = (Returned resp, st')
    /\ exists msg : jsstring, field "error" (body resp) = Some (JStr msg).
Proof.
  destruct (response_shape [] Sample.throttled initial)
    as (resp & st' & Hrun & _ & _ & _ & Hfailure).
  exists resp, st'. split; [exact Hrun|].
  destruct Hfailure as (msg & Hmsg & _).
  - intros H200.
    assert (Hpath : POST [] Sample.throttled initial
                    = (Returned (classify Sample.rateLimit),
                       snd (POST [] Sample.throttled initial)))
      by reflexivity.
    rewrite Hrun in Hpath. apply returned_pair in Hpath.
    destruct Hpath as [Heq _]. rewrite <- Heq in H200. discriminate H200.
  - now exists msg.
Defined.

(** X5.  The provider is called at most once in a run, never again after a
    fault: exactly once, with the composed request, when the caller is
    signed in, the body is read, the content is within budget and a
    credential is configured; otherwise not at all. *)
Theorem provider_called_once (mockFooter : jsstring) (w : World) (st : State) :
  (forall (a : AuthObject) (req : EnhancementRequest),
      reachesProvider w a req ->
      providerCalls (trace (snd (POST mockFooter w st)))
      = providerCalls (trace st) ++ [EvCreate (sentParams w a req)])
  /\ ((forall (a : AuthObject) (req : EnhancementRequest),
          ~ reachesProvider w a req) ->
      providerCalls (trace (snd (POST mockFooter w st)))
      = providerCalls (trace st)).
Proof.
  split; [intros a req; apply POST_calls_provider|].
  destruct (POST_returns mockFooter w st) as (resp & st' & Hrun).
  rewrite Hrun. cbn [snd].
  - intros Hnever.
    handler_paths mockFooter w st Hrun; cbn [trace];
      rewrite ?providerCalls_app;
      cbn [providerCalls gateEvents filter is_create app];
      rewrite ?app_nil_r; try reflexivity;
      exfalso; apply (Hnever a req); repeat split; assumption.
Qed.

Lemma provider_called_once_witness :
  providerCalls (trace (snd (POST [] Sample.answered initial)))
  = [EvCreate (sentParams Sample.answered Sample.student Sample.short)]
  /\ providerCalls (trace (snd (POST [] Sample.signedOut initial))) = [].
Proof.
  split.
  - apply (proj1 (provider_called_once [] Sample.answered initial)
             Sample.student Sample.short).
    repeat split.
  - apply (proj2 (provider_called_once [] Sample.signedOut initial)).
    intros a req (Hauth & Hid & _).
    injection Hauth as <-. discriminate Hid.
Defined.

(** ** What the provider is asked, and what is made of its answer *)

(** X6.  The request sent to the provider names the model of the
    environment, or [gpt-3.5-turbo] when the variable is unset or empty;
    it carries the fixed system message and then the composed prompt as
    the user message, the temperature 0.7, and as [max_tokens] the output
    ceiling the registry gives for that same model. *)
Theorem provider_request
  (mockFooter : jsstring) (w : World) (st : State)
  (a : AuthObject) (req : EnhancementRequest) :
  reachesProvider w a req ->
  exists p : Chat.Params,
    providerCalls (trace (snd (POST mockFooter w st)))
    = providerCalls (trace st) ++ [EvCreate p]
    /\ (truthy (OPENAI_MODEL w) = false -> Chat.model p = lit "gpt-3.5-turbo")
    /\ (forall m : jsstring,
           OPENAI_MODEL w = Some m -> m <> [] -> Chat.model p = m)
    /\ Chat.messages p
       = [ {| Chat.role := lit "system"; Chat.content := systemMessage |};
           {| Chat.role := lit "user";
              Chat.content :=
                composePrompt (subject req) (originalContent req)
                  (effectiveSettings (isPaid a) (enhancementSettings req)) |} ]
    /\ Chat.temperature p = 0.7%Q
    /\ Chat.max_tokens p = maxOutputTokens (getModelConfig w (Chat.model p)).
Proof.
  intros Hreach. exists (sentParams w a req). split.
  { now apply POST_calls_provider. }
  unfold sentParams, createParams, chosenConfig, chosenModel, or_default.
  cbn [Chat.model Chat.messages Chat.temperature Chat.max_tokens].
  split; [|split]; [| |repeat split].
  - intros Hunset. now rewrite Hunset.
  - intros m Hm Hne. rewrite Hm. destruct m; [contradiction|reflexivity].
Qed.

Lemma provider_request_witness :
  exists p : Chat.Params,
    providerCalls (trace (snd (POST [] Sample.silent initial))) = [EvCreate p]
    /\ Chat.model p = lit "gpt-4"
    /\ Chat.max_tokens p = 1000%N.
Proof.
  assert (Hreach : reachesProvider Sample.silent Sample.student Sample.short)
    by (repeat split).
  destruct (provider_request [] initial Hreach)
    as (p & Hcalls & _ & Hmodel & _ & _ & Htokens).
  exists p. split; [exact Hcalls|].
  assert (Hgpt4 : Chat.model p = lit "gpt-4").
  { apply Hmodel; [reflexivity | discriminate]. }
  split; [exact Hgpt4|]. rewrite Htokens. reflexivity.
Defined.

(** X7.  When the provider answers, the response is 200 and carries the
    content of the first choice as [enhancedContent], later choices being
    ignored, and the empty string when there is no choice, no message or no
    content; [processingTime] is the second clock reading minus the first,
    and the clock is read exactly twice. *)
Theorem completed_response
  (mockFooter : jsstring) (w : World) (st : State)
  (a : AuthObject) (req : EnhancementRequest) (completion : Chat.Completion) :
  reachesProvider w a req ->
  create w (sentParams w a req) = Returned completion ->
  exists (resp : Response) (st' : State) (text : jsstring),
    POST mockFooter w st = (Returned resp, st')
    /\ status resp = 200%N
    /\ field "enhancedContent" (body resp) = Some (JStr text)
    /\ field "wordCount" (body resp)
       = Some (JNum (Z.of_nat (List.length (split_spaces text))))
    /\ field "processingTime" (body resp)
       = Some (JNum (Date_now w (S (ticks st)) - Date_now w (ticks st)))
    /\ ticks st' = S (S (ticks st))
    /\ (forall (content : jsstring) (others : list Chat.Choice),
           Chat.choices completion
           = {| Chat.message := Some {| Chat.reply_content := Some content |} |}
             :: others ->
           text = content)
    /\ (Chat.choices completion = [] -> text = [])
    /\ (forall others : list Chat.Choice,
           Chat.choices completion = {| Chat.message := None |} :: others ->
           text = [])
    /\ (forall others : list Chat.Choice,
           Chat.choices completion
           = {| Chat.message := Some {| Chat.reply_content := None |} |}
             :: others ->
           text = []).
Proof.
  intros (Hauth & Hid & Hreq & Hover & Hkey) Hcreate.
  eexists. eexists. exists (completionText completion). split.
  { apply POST_completed with (a := a) (req := req); eassumption. }
  cbn [status body ticks]. unfold completionText.
  split; [reflexivity|]. split; [reflexivity|]. split; [reflexivity|].
  split; [reflexivity|]. split; [reflexivity|]. repeat apply conj.
  - intros content others ->. cbn. now destruct content.
  - intros ->. reflexivity.
  - intros others ->. reflexivity.
  - intros others ->. reflexivity.
Qed.

Lemma completed_response_witness :
  exists (resp : Response) (st' : State),
    POST [] Sample.answered initial = (Returned resp, st')
    /\ field "enhancedContent" (body resp) = Some (JStr (lit "# Notes"))
    /\ field "processingTime" (body resp) = Some (JNum 1).
Proof.
  assert (Hreach : reachesProvider Sample.answered Sample.student Sample.short)
    by (repeat split).
  destruct (completed_response [] initial Hreach
              (completion :=
                 {| Chat.choices :=
                      [ {| Chat.message :=
                             Some {| Chat.reply_content :=
                                       Some (lit "# Notes") |} |} ] |})
              eq_refl)
    as (resp & st' & text & Hrun & _ & Htext & _ & Htime & _ & Hfirst & _).
  exists resp, st'. split; [exact Hrun|].
  rewrite Htext, Htime, (Hfirst (lit "# Notes") [] eq_refl).
  split; reflexivity.
Defined.

(** X8.  A fault raised before the provider is reached, by [auth()] or by
    reading the body, is answered by the same classification as a provider
    fault; the last thing the handler does is log it, and the provider is
    not called.  A thrown value with neither [code] nor [status], such as
    the error of a body that is not JSON, gives the generic 500. *)
Theorem early_fault_classified
  (mockFooter : jsstring) (w : World) (st : State) (e : Fault.t) :
  auth w = Thrown e
  \/ (exists a : AuthObject,
        auth w = Returned a /\ truthy (userId a) = true
        /\ request_json w = Thrown e) ->
  exists st' : State,
    POST mockFooter w st = (Returned (classify e), st')
    /\ lastEvent (trace st') = Some (EvLogError e)
    /\ providerCalls (trace st') = providerCalls (trace st)
    /\ (Fault.code e = FAbsent -> Fault.status e = FAbsent ->
        classify e
        = {| body := [("success", JBool false);
                      ("error", JStr (lit "Failed to enhance note. Please try again."))];
             status := 500 |}).
Proof.
  intros [Hauth | (a & Hauth & Hid & Hreq)]; eexists; (split;
    [ first [ now apply POST_auth_thrown
            | apply POST_body_thrown with (a := a); eassumption ] |]);
    cbn [trace]; unfold lastEvent; rewrite rev_app_distr;
    (split; [reflexivity|]); rewrite providerCalls_app;
    (split; [cbn; apply app_nil_r|]);
    intros Hcode Hstatus; unfold classify; now rewrite Hcode, Hstatus.
Qed.

Lemma early_fault_classified_witness :
  exists st' : State,
    POST []
      (Sample.world (Thrown {| Fault.code := FAbsent;
                               Fault.status := FAbsent;
                               Fault.message := lit "Unauthorized" |})
         Sample.short (Some (lit "sk-test")) None
         (fun n => Z.of_nat n) (Sample.reply None))
      initial
    = (Returned {| body := [("success", JBool false);
                            ("error", JStr (lit "Failed to enhance note. Please try again."))];
                   status := 500 |}, st').
Proof.
  destruct (@early_fault_classified []
              (Sample.world
                 (Thrown {| Fault.code := FAbsent;
                            Fault.status := FAbsent;
                            Fault.message := lit "Unauthorized" |})
                 Sample.short (Some (lit "sk-test")) None
                 (fun n => Z.of_nat n)
                 (Sample.reply None))
              initial
              {| Fault.code := FAbsent;
                 Fault.status := FAbsent;
                 Fault.message := lit "Unauthorized" |}
              (or_introl eq_refl))
    as (st' & Hrun & _ & _ & Hgeneric).
  exists st'. rewrite Hrun, (Hgeneric eq_refl eq_refl). reflexivity.
Defined.

(** ** What the handler does not look at *)

Lemma composePrompt_enhancements (subject originalContent : jsstring)
  (s1 s2 : EnhancementSettings) :
  enhancements s1 = enhancements s2 ->
  composePrompt subject originalContent s1
  = composePrompt subject originalContent s2.
Proof.
  intros H. rewrite !prompt_sections.
  unfold Prompt.instructionBlock, Prompt.instructions. now rewrite H.
Qed.

Lemma enhancements_read (s1 s2 : EnhancementSettings) :
  structureLevel s1 = structureLevel s2 ->
  includeDefinitions s1 = includeDefinitions s2 ->
  generateQuestions s1 = generateQuestions s2 ->
  createSummary s1 = createSummary s2 ->
  addExamples s1 = addExamples s2 ->
  enhancements s1 = enhancements s2.
Proof.
  intros Hl Hd Hq Hs He. unfold enhancements.
  now rewrite Hl, Hd, Hq, Hs, He.
Qed.

(** Two payloads with the same content and subject, whose prompts would be
    the same, are handled alike. *)
Lemma POST_agree (mockFooter : jsstring) (w : World) (st : State)
  (r1 r2 : EnhancementRequest) :
  originalContent r1 = originalContent r2 ->
  subject r1 = subject r2 ->
  (forall a : AuthObject,
      auth w = Returned a ->
      truthy (OPENAI_API_KEY w) = true ->
      enhancements (effectiveSettings (isPaid a) (enhancementSettings r1))
      = enhancements (effectiveSettings (isPaid a) (enhancementSettings r2))) ->
  POST mockFooter (withRequest w r1) st = POST mockFooter (withRequest w r2) st.
Proof.
  intros Hcontent Hsubject Hprompt.
  unfold POST, try_catch, POST_try, bind, await, now, console_log,
    console_error, emit, ret.
  cbn [withRequest auth request_json OPENAI_API_KEY OPENAI_MODEL
         getModelConfig Date_now create].
  destruct (auth w) as [a|e] eqn:Hauth; [|reflexivity].
  destruct (truthy (userId a)); cbn [negb]; [|reflexivity].
  cbn beta iota zeta. rewrite Hcontent, Hsubject.
  destruct (overBudget _ _); [reflexivity|].
  destruct (truthy (OPENAI_API_KEY w)) eqn:Hkey; cbn [negb]; [|reflexivity].
  rewrite (@composePrompt_enhancements (subject r2) (originalContent r2)
             _ _ (Hprompt a eq_refl eq_refl)).
  reflexivity.
Qed.

(** X9.  The handler reads the content, the subject, the structure level
    and the four instruction flags of a payload, and nothing else: two
    payloads that agree on these, whatever their [noteId] and
    [autoGenerateFlashcards], get the same response after the same calls. *)
Theorem unread_fields_ignored
  (mockFooter : jsstring) (w : World) (st : State)
  (r1 r2 : EnhancementRequest) :
  readAlike r1 r2 ->
  POST mockFooter (withRequest w r1) st = POST mockFooter (withRequest w r2) st.
Proof.
  intros (Hcontent & Hsubject & Hl & Hd & Hq & Hs & He).
  apply POST_agree; [exact Hcontent | exact Hsubject |].
  intros a _ _. unfold effectiveSettings.
  destruct (isPaid a); [now apply enhancements_read | reflexivity].
Qed.

Lemma unread_fields_ignored_witness :
  POST []
    (withRequest Sample.answered
       {| noteId := lit "note_9";
          originalContent := lit "Cells divide by mitosis.";
          subject := lit "Biology";
          enhancementSettings :=
            {| includeDefinitions := true;
               generateQuestions := true;
               createSummary := true;
               addExamples := true;
               structureLevel := comprehensive;
               autoGenerateFlashcards := false |} |})
    initial
  = POST [] (withRequest Sample.answered Sample.short) initial.
Proof.
  apply unread_fields_ignored. repeat split.
Defined.

(** X10.  For a caller on none of the paid plans, the requested settings
    have no effect at all: two payloads with the same content and subject
    get the same response after the same calls, the provider being sent
    the same prompt. *)
Theorem free_plan_ignores_settings
  (mockFooter : jsstring) (w : World) (st : State)
  (a : AuthObject) (r1 r2 : EnhancementRequest) :
  auth w = Returned a ->
  isPaid a = false ->
  originalContent r1 = originalContent r2 ->
  subject r1 = subject r2 ->
  POST mockFooter (withRequest w r1) st = POST mockFooter (withRequest w r2) st.
Proof.
  intros Hauth Hfree Hcontent Hsubject.
  apply POST_agree; [exact Hcontent | exact Hsubject |].
  intros a' Hauth' _. assert (a' = a) by congruence. subst a'.
  now rewrite Hfree.
Qed.

Lemma free_plan_ignores_settings_witness :
  POST []
    (withRequest Sample.oversized
       {| noteId := lit "note_1";
          originalContent := lit "Cells divide by mitosis.";
          subject := lit "Biology";
          enhancementSettings := Sample.allOff |})
    initial
  = POST [] (withRequest Sample.oversized Sample.short) initial.
Proof.
  apply (@free_plan_ignores_settings [] Sample.oversized initial Sample.free);
    reflexivity.
Defined.

(** X11.  When the credential is not usable (the key is empty or unset),
    neither the requested settings nor the caller's plan influence what a
    request gets: two callers that are both signed in, or both not, with
    payloads of the same content and subject, get the same outcome after
    the same calls.  This holds of the handler and of the served route,
    where a run with an unset key ends at the module's throw for both. *)
Theorem no_credential_ignores_settings
  (mockFooter : jsstring) (w : World) (st : State)
  (a1 a2 : AuthObject) (r1 r2 : EnhancementRequest) :
  truthy (OPENAI_API_KEY w) = false ->
  truthy (userId a1) = truthy (userId a2) ->
  originalContent r1 = originalContent r2 ->
  subject r1 = subject r2 ->
  serve mockFooter (withCaller (withRequest w r1) a1) st
  = serve mockFooter (withCaller (withRequest w r2) a2) st
  /\ POST mockFooter (withCaller (withRequest w r1) a1) st
     = POST mockFooter (withCaller (withRequest w r2) a2) st.
Proof.
  intros Hkey Hid Hcontent Hsubject.
  assert (Hrun : POST mockFooter (withCaller (withRequest w r1) a1) st
                 = POST mockFooter (withCaller (withRequest w r2) a2) st).
  { unfold POST, try_catch, POST_try, bind, await, now, console_log,
      console_error, emit, ret.
    cbn [withCaller withRequest auth request_json OPENAI_API_KEY OPENAI_MODEL
           getModelConfig Date_now create].
    rewrite Hid. destruct (truthy (userId a2)); cbn [negb]; [|reflexivity].
    cbn beta iota zeta. rewrite Hcontent, Hsubject, Hkey. cbn [negb].
    destruct (overBudget _ _); reflexivity. }
  split; [|exact Hrun].
  unfold serve, route_module.
  cbn [withCaller withRequest OPENAI_API_KEY].
  destruct (OpenAI.new (OPENAI_API_KEY w)); [exact Hrun | reflexivity].
Qed.

(** A free caller asking for nothing and a student asking for everything,
    with an empty key: the same placeholder. *)
Lemma no_credential_ignores_settings_witness :
  serve []
    (withCaller
       (withRequest Sample.emptyKey
          {| noteId := lit "note_1";
             originalContent := lit "Cells divide by mitosis.";
             subject := lit "Biology";
             enhancementSettings := Sample.allOff |})
       Sample.free)
    initial
  = serve [] (withCaller (withRequest Sample.emptyKey Sample.short)
                Sample.student)
      initial.
Proof.
  apply (@no_credential_ignores_settings [] Sample.emptyKey initial
           Sample.free Sample.student
           {| noteId := lit "note_1";
              originalContent := lit "Cells divide by mitosis.";
              subject := lit "Biology";
              enhancementSettings := Sample.allOff |}
           Sample.short);
    reflexivity.
Defined.

(** ** The instructions and the prompt *)

Lemma flag_tests (s : EnhancementSettings) :
  mem enhancementPrompts.definitions (enhancements s) = includeDefinitions s
  /\ mem enhancementPrompts.questions (enhancements s) = generateQuestions s
  /\ mem enhancementPrompts.summary (enhancements s) = createSummary s
  /\ mem enhancementPrompts.examples (enhancements s) = addExamples s
  /\ enhancements s
     = filter (fun i => mem i (enhancements s)) instructionOrder
  /\ List.length (enhancements s)
     = match structureLevel s with basic => 0 | _ => 1 end
       + Nat.b2n (includeDefinitions s) + Nat.b2n (generateQuestions s)
       + Nat.b2n (createSummary s) + Nat.b2n (addExamples s)
  /\ Nat.leb 575 (List.length (composePrompt [] [] s)) = true.
Proof.
  destruct s as [d q su ex level fl].
  destruct d, q, su, ex, level, fl; vm_compute; repeat split.
Qed.

(** X12.  Each of the four optional instructions is pushed exactly when its
    flag is set; the instructions always stand in the order structure,
    definitions, questions, summary, examples, each at most once, so their
    number is the number of flags set, plus one above level basic. *)
Theorem instructions_follow_flags (s : EnhancementSettings) :
  (In enhancementPrompts.definitions (enhancements s)
   <-> includeDefinitions s = true)
  /\ (In enhancementPrompts.questions (enhancements s)
      <-> generateQuestions s = true)
  /\ (In enhancementPrompts.summary (enhancements s)
      <-> createSummary s = true)
  /\ (In enhancementPrompts.examples (enhancements s)
      <-> addExamples s = true)
  /\ enhancements s
     = filter (fun i => mem i (enhancements s)) instructionOrder
  /\ List.length (enhancements s)
     = match structureLevel s with basic => 0 | _ => 1 end
       + Nat.b2n (includeDefinitions s) + Nat.b2n (generateQuestions s)
       + Nat.b2n (createSummary s) + Nat.b2n (addExamples s).
Proof.
  destruct (flag_tests s) as (Hd & Hq & Hs & He & Horder & Hlen & _).
  split; [now rewrite <- mem_spec, Hd|].
  split; [now rewrite <- mem_spec, Hq|].
  split; [now rewrite <- mem_spec, Hs|].
  split; [now rewrite <- mem_spec, He|].
  split; [exact Horder | exact Hlen].
Qed.

(** X13.  The prompt carries the subject and the content verbatim, and its
    length is theirs plus that of the text around them, which is at least
    575 code units: the prompt sent is always longer than the content the
    budget gate measured. *)
Theorem prompt_carries_input
  (subject originalContent : jsstring) (s : EnhancementSettings) :
  contains (composePrompt subject originalContent s) subject
  /\ contains (composePrompt subject originalContent s) originalContent
  /\ List.length (composePrompt subject originalContent s)
     = List.length (composePrompt [] [] s)
       + List.length subject + List.length originalContent
  /\ 575 + List.length originalContent
     <= List.length (composePrompt subject originalContent s).
Proof.
  assert (Hlen : List.length (composePrompt subject originalContent s)
                 = List.length (composePrompt [] [] s)
                   + List.length subject + List.length originalContent).
  { rewrite !prompt_sections.
    unfold Prompt.subjectSentence, Prompt.originalBlock.
    rewrite !length_app. cbn [List.length]. lia. }
  destruct (flag_tests s) as (_ & _ & _ & _ & _ & _ & Hfixed).
  apply Nat.leb_le in Hfixed.
  split; [|split; [|split; [exact Hlen | lia]]].
  - exists (Prompt.preamble ++ lit "The content is from a "),
      (lit " class. " ++ Prompt.framing ++ Prompt.originalBlock originalContent
       ++ Prompt.instructionBlock s ++ Prompt.closing).
    rewrite prompt_sections. unfold Prompt.subjectSentence.
    repeat rewrite <- app_assoc. reflexivity.
  - exists (Prompt.preamble ++ Prompt.subjectSentence subject ++ Prompt.framing
            ++ lit "Original content:" ++ LF),
      (LF ++ LF ++ Prompt.instructionBlock s ++ Prompt.closing).
    rewrite prompt_sections. unfold Prompt.originalBlock.
    repeat rewrite <- app_assoc. reflexivity.
Qed.
